(** * Dorametrix: the Shortcut webhook parser and the timestamp helpers

    A shallow embedding of

    - [infrastructure/frameworks/time.ts]: [convertToIsoDate],
      [createTimezoneConvertedDateString], [getTimestampForISODate],
      [getTimestampForInputDate];
    - the Shortcut parser ([ShortcutParser]): [getStoryData], [hasLabelId],
      [hasIncidentLabel], [getEventType], [getPayload] and its handlers;
    - further on, the constructor of the parser, the rest of [time.ts]
      ([getTimestampsForPeriod], [getMaxTimestampFromDate],
      [getDiffInSeconds]) and the local repository
      ([infrastructure/repositories/LocalRepository.ts]).

    JavaScript numbers that occur here (label ids, hour offsets, epoch
    values) are integers and are modelled by [Z]; strings are [string];
    a thrown exception is the [Throw] branch of [result]. *)

From Stdlib Require Import ZArith List Bool Lia Ascii String DecimalString.
From Stdlib Require Import Permutation.
From Stdlib Require DecimalPos DecimalFacts.
Import ListNotations.

Open Scope string_scope.
Open Scope Z_scope.

(** ** Exceptions *)

Inductive error : Type :=
| MissingIdError                 (* 'Missing ID in getStoryData()!' *)
| MissingShortcutFieldsError
| InvalidIsoDateConversionError
| TypeError                      (* raised by the JavaScript runtime *)
| FetchError.                    (* a rejected network call *)

Inductive result (A : Type) : Type :=
| Ok (a : A)
| Throw (e : error).
Arguments Ok {A} a.
Arguments Throw {A} e.

Definition bind {A B : Type} (r : result A) (k : A -> result B) : result B :=
  match r with
  | Ok a => k a
  | Throw e => Throw e
  end.

Declare Scope js_scope.
Notation "'let*' x ':=' r 'in' k" := (bind r (fun x => k))
  (at level 10, x name, r at level 100, k at level 200) : js_scope.
Open Scope js_scope.

(** ** The part of the JavaScript runtime the code relies on *)

Module JS.

(** [Number.prototype.toString] on an integer: decimal digits, with a
    leading minus sign for negative values. *)
Definition Number_toString (n : Z) : string :=
  NilZero.string_of_int (Z.to_int n).

(** [NaN] is the [None] of [option Z]; a template literal prints it as
    the text NaN. *)
Definition template_number (n : option Z) : string :=
  match n with
  | Some z => Number_toString z
  | None => "NaN"
  end.

(** [s.includes(c)] for a one-character needle. *)
Fixpoint includes (c : ascii) (s : string) : bool :=
  match s with
  | EmptyString => false
  | String a r => if Ascii.eqb a c then true else includes c r
  end.

(** [s.replace(c, '')] for a one-character pattern: only the first
    occurrence is removed. *)
Fixpoint remove_first (c : ascii) (s : string) : string :=
  match s with
  | EmptyString => EmptyString
  | String a r => if Ascii.eqb a c then r else String a (remove_first c r)
  end.

(** [s.substring(i, j)] with [i <= j]. *)
Definition substring (i j : nat) (s : string) : string :=
  String.substring i (j - i) s.

(** *** [Date] on the ECMAScript date-time string format

    [new Date(s).getTime()] for [s] of the shape
    [YYYY-MM-DDTHH:mm:ss.sss+HH:mm] (or with [-] before the offset),
    which is the only shape [createTimezoneConvertedDateString] builds.
    The result is in milliseconds since the epoch; [None] is the
    [NaN] of an invalid date.  As in V8, the day field is accepted from
    01 to 31 and carried over into the next month, an offset has exactly
    two digits of hours, from 00 to 23, and two of minutes. *)

Definition digit (c : ascii) : option Z :=
  let n := nat_of_ascii c in
  if (andb (Nat.leb 48 n) (Nat.leb n 57)) then Some (Z.of_nat (n - 48)) else None.

Definition num2 (a b : ascii) : option Z :=
  match digit a, digit b with
  | Some x, Some y => Some (10 * x + y)
  | _, _ => None
  end.

Definition num3 (a b c : ascii) : option Z :=
  match digit a, num2 b c with
  | Some x, Some y => Some (100 * x + y)
  | _, _ => None
  end.

Definition num4 (a b c d : ascii) : option Z :=
  match num2 a b, num2 c d with
  | Some x, Some y => Some (100 * x + y)
  | _, _ => None
  end.

(** Days from 1970-01-01 to the given civil date (proleptic Gregorian
    calendar); a day beyond the end of the month counts on into the
    following one. *)
Definition days_from_civil (y m d : Z) : Z :=
  let y' := if m <=? 2 then y - 1 else y in
  let era := y' / 400 in
  let yoe := y' - era * 400 in
  let mp := (m + 9) mod 12 in
  let doy := (153 * mp + 2) / 5 + d - 1 in
  let doe := yoe * 365 + yoe / 4 - yoe / 100 + doy in
  era * 146097 + doe - 719468.

(** The date part, ten characters [YYYY-MM-DD]: days since the epoch. *)
Definition parse_date (s : string) : option Z :=
  match list_ascii_of_string s with
  | [y1; y2; y3; y4; h1; m1; m2; h2; d1; d2] =>
      if andb (Ascii.eqb h1 "-") (Ascii.eqb h2 "-") then
        match num4 y1 y2 y3 y4, num2 m1 m2, num2 d1 d2 with
        | Some y, Some m, Some d =>
            if andb (andb (1 <=? m) (m <=? 12)) (andb (1 <=? d) (d <=? 31))
            then Some (days_from_civil y m d)
            else None
        | _, _, _ => None
        end
      else None
  | _ => None
  end.

(** The time part, [THH:mm:ss.sss]: milliseconds into the day. *)
Definition parse_time (s : string) : option Z :=
  match list_ascii_of_string s with
  | [t; h1; h2; c1; m1; m2; c2; s1; s2; p; f1; f2; f3] =>
      if andb (andb (Ascii.eqb t "T") (Ascii.eqb p "."))
              (andb (Ascii.eqb c1 ":") (Ascii.eqb c2 ":")) then
        match num2 h1 h2, num2 m1 m2, num2 s1 s2, num3 f1 f2 f3 with
        | Some h, Some m, Some sec, Some ms =>
            if orb (andb (h <=? 23) (andb (m <=? 59) (sec <=? 59)))
                   (andb (h =? 24) (andb (m =? 0) (andb (sec =? 0) (ms =? 0))))
            then Some (((h * 60 + m) * 60 + sec) * 1000 + ms)
            else None
        | _, _, _, _ => None
        end
      else None
  | _ => None
  end.

(** The offset part, a sign and [HH:mm]: milliseconds that local time
    is ahead of UTC. *)
Definition parse_offset (s : string) : option Z :=
  match list_ascii_of_string s with
  | [sg; h1; h2; c; m1; m2] =>
      if Ascii.eqb c ":" then
        match num2 h1 h2, num2 m1 m2 with
        | Some h, Some m =>
            if andb (h <=? 23) (m <=? 59) then
              if Ascii.eqb sg "+" then Some ((h * 60 + m) * 60000)
              else if Ascii.eqb sg "-" then Some (- ((h * 60 + m) * 60000))
              else None
            else None
        | _, _ => None
        end
      else None
  | _ => None
  end.

(** [new Date(s).getTime()]. *)
Definition Date_getTime (s : string) : option Z :=
  match parse_date (String.substring 0 10 s),
        parse_time (String.substring 10 13 s),
        parse_offset (String.substring 23 (String.length s - 23) s) with
  | Some days, Some ms, Some off => Some (days * 86400000 + ms - off)
  | _, _, _ => None
  end.

(** [Math.floor(x / 1000)], with [NaN] propagated. *)
Definition floor_div_1000 (x : option Z) : option Z :=
  match x with
  | Some z => Some (z / 1000)
  | None => None
  end.

End JS.

(** ** [infrastructure/frameworks/time.ts] *)

(** Converts a [YYYYMMDD] date string to ISO format. *)
Definition convertToIsoDate (input : string) : result string :=
  if orb (String.eqb input "") (negb (Nat.eqb (String.length input) 8))
  then Throw InvalidIsoDateConversionError
  else
    let year := JS.substring 0 4 input in
    let month := JS.substring 4 6 input in
    let day := JS.substring 6 8 input in
    Ok (year ++ "-" ++ month ++ "-" ++ day).

(** Returns a long timezone-converted date string from a formatted date;
    the sign of the offset is flipped on purpose. *)
Definition createTimezoneConvertedDateString
  (formattedDate : string) (offsetInHours : Z) (lastPossibleTime : bool) : string :=
  let offsetMarker :=
    if JS.includes "-" (JS.Number_toString offsetInHours) then "+" else "-" in
  let numericOffset := JS.remove_first "-" (JS.Number_toString offsetInHours) in
  let leadingZero := if Nat.eqb (String.length numericOffset) 1 then "0" else "" in
  let time := if lastPossibleTime then "T23:59:59.999" else "T00:00:00.000" in
  formattedDate ++ time ++ offsetMarker ++ leadingZero ++ numericOffset ++ ":00".

(** Retrieve the timestamp (seconds) for an ISO date such as [2023-01-01]. *)
Definition getTimestampForISODate
  (formattedDate : string) (offsetInHours : Z) (lastPossibleTime : bool) : option Z :=
  let date :=
    JS.Date_getTime
      (createTimezoneConvertedDateString formattedDate offsetInHours lastPossibleTime) in
  JS.floor_div_1000 date.

(** Gets a corresponding Unix timestamp for a [YYYYMMDD] date. *)
Definition getTimestampForInputDate
  (date : string) (offsetInHours : Z) (lastPossibleTime : bool) : result string :=
  let* formatted := convertToIsoDate date in
  let timestamp := getTimestampForISODate formatted offsetInHours lastPossibleTime in
  Ok (JS.template_number timestamp).

(** ** JSON data read by the Shortcut parser

    The webhook body and the story returned by the Shortcut API are JSON
    objects, typed [Record<string, any>] in the source.  They are modelled
    by records of the properties the parser reads, each at the type the
    source gives it ([label: number], [id: string]) or the Shortcut schema
    gives it: label ids are numbers, the entries of [actions] are
    objects, [completed] and [archived] are booleans, dates are strings.
    A property read yields [undefined] (no such key), [null], or a value;
    the other own keys of an object are kept by name, as they count in
    [Object.keys]. *)

Inductive js (A : Type) : Type :=
| undefined
| null
| val (a : A).
Arguments undefined {A}.
Arguments null {A}.
Arguments val {A} a.

(** An own key of a parsed JSON object is present unless the read gives
    [undefined]. *)
Definition present {A : Type} (x : js A) : nat :=
  match x with
  | undefined => 0%nat
  | _ => 1%nat
  end.

(** [changes.label_ids]: the delta of the labels of a story. *)
Record LabelIdChanges : Type := {
  adds : js (list Z);
  removes : js (list Z)
}.

Record Changes : Type := {
  changes_label_ids : js LabelIdChanges
}.

(** One entry of the [actions] array of a webhook. *)
Record Action : Type := {
  action : js string;
  label_ids : js (list Z);
  changes : js Changes
}.

Record WebhookBody : Type := {
  primary_id : js string;
  changed_at : js string;
  actions : js (list Action);
  other_keys : list string
}.

(** The story as returned by [GET /api/v3/stories/:id]. *)
Record StoryData : Type := {
  story_id : js Z;
  name : js string;
  created_at : js string;
  completed : js bool;
  archived : js bool;
  completed_at_override : js string;
  completed_at : js string;
  story_other_keys : list string
}.

(** The input of [getPayload] and of [getEventType]. *)
Record PayloadInput : Type := {
  body : js WebhookBody
}.
Definition EventTypeInput : Type := PayloadInput.

(** The object literal [{}]. *)
Definition empty_object : WebhookBody :=
  {| primary_id := undefined; changed_at := undefined;
     actions := undefined; other_keys := [] |}.

(** [Object.keys(o).length]. *)
Definition WebhookBody_keys_length (o : WebhookBody) : nat :=
  (present (primary_id o) + present (changed_at o) + present (actions o)
   + List.length (other_keys o))%nat.

Definition StoryData_keys_length (o : StoryData) : nat :=
  (present (story_id o) + present (name o) + present (created_at o)
   + present (completed o) + present (archived o)
   + present (completed_at_override o) + present (completed_at o)
   + List.length (story_other_keys o))%nat.

(** [EventDto]; the property [timeResolved] is optional. *)
Record EventDto : Type := {
  eventTime : js string;
  timeCreated : string;
  timeResolved : option string;
  id : string;
  title : js string;
  message : string
}.

(** The value of [event] in [getPayload]. *)
Inductive Event : Type :=
| opened
| labeled
| closed
| unlabeled
| unknown.

(** What the parser reads from outside: the answer of the Shortcut API to
    a request (URL, token), already decoded by [response.json()], and the
    clock [Date.now()], in milliseconds. *)
Record World : Type := {
  fetch : string -> string -> result (js StoryData);
  Date_now : Z
}.

(** The fields of a [ShortcutParser] set by its constructor. *)
Record ShortcutParser : Type := {
  shortcutIncidentLabelId : Z;
  shortcutToken : string
}.

(** ** The Shortcut parser *)

Section ShortcutParser.

(** [convertDateToUnixTimestamp] of the package chrono-utils and
    [JSON.stringify] are used as they are. *)
Variable convertDateToUnixTimestamp : js string -> string.
Variable JSON_stringify : StoryData -> string.

(** Truthiness of a string and of a boolean property. *)
Definition truthy_string (x : js string) : bool :=
  match x with
  | val s => negb (String.eqb s "")
  | _ => false
  end.

Definition truthy_bool (x : js bool) : bool :=
  match x with
  | val b => b
  | _ => false
  end.

(** [x == true] on a boolean property. *)
Definition loose_eq_true (x : js bool) : bool :=
  match x with
  | val b => b
  | _ => false
  end.

(** [x == s] on a string property. *)
Definition loose_eq_string (x : js string) (s : string) : bool :=
  match x with
  | val t => String.eqb t s
  | _ => false
  end.

(** [x?.toString()] on a string property. *)
Definition opt_toString (x : js string) : js string :=
  match x with
  | val s => val s
  | _ => undefined
  end.

(** [a || b]. *)
Definition or_string (a b : js string) : js string :=
  if truthy_string a then a else b.

(** A template literal around a numeric property. *)
Definition template_js (x : js Z) : string :=
  match x with
  | undefined => "undefined"
  | null => "null"
  | val n => JS.Number_toString n
  end.

Definition getStoryData (this : ShortcutParser) (w : World) (body : WebhookBody)
  : result StoryData :=
  let id := primary_id body in
  if negb (truthy_string id) then Throw MissingIdError
  else
    match id with
    | val id =>
        let* storyData :=
          fetch w ("https://api.app.shortcut.com/api/v3/stories/" ++ id)
                (shortcutToken this) in
        match storyData with
        | val storyData =>
            if Nat.eqb (StoryData_keys_length storyData) 0
            then Throw MissingShortcutFieldsError
            else Ok storyData
        | _ => Throw MissingShortcutFieldsError
        end
    | _ => Throw MissingIdError
    end.

(** [labels?.filter((label) => label == incidentLabelId).length > 0] *)
Definition filter_label_nonempty (incidentLabelId : Z) (labels : js (list Z)) : bool :=
  match labels with
  | val l =>
      Nat.ltb 0 (List.length (filter (fun label => label =? incidentLabelId) l))
  | _ => false
  end.

(** [action?.changes?.label_ids?.[check]] *)
Definition changes_label_ids_at (check : string) (a : Action) : js (list Z) :=
  match changes a with
  | val c =>
      match changes_label_ids c with
      | val d =>
          if String.eqb check "adds" then adds d
          else if String.eqb check "removes" then removes d
          else undefined
      | _ => undefined
      end
  | _ => undefined
  end.

(** The loop of [hasLabelId] over the actions, in order. *)
Fixpoint hasLabelId_loop (check : string) (incidentLabelId : Z)
  (webhookActions : list Action) : bool :=
  match webhookActions with
  | [] => false
  | action :: rest =>
      (* Check labels when a story is created *)
      if filter_label_nonempty incidentLabelId (label_ids action) then true
      (* Check labels when a story is changed *)
      else if filter_label_nonempty incidentLabelId
                (changes_label_ids_at check action) then true
      else hasLabelId_loop check incidentLabelId rest
  end.

(** [Object.keys] throws on [undefined] and on [null]. *)
Definition hasLabelId (check : string) (incidentLabelId : Z)
  (webhookActions : js (list Action)) : result bool :=
  match webhookActions with
  | val l => Ok (hasLabelId_loop check incidentLabelId l)
  | _ => Throw TypeError
  end.

Definition hasIncidentLabel (this : ShortcutParser)
  (webhookActions : js (list Action)) : result bool :=
  hasLabelId "adds" (shortcutIncidentLabelId this) webhookActions.

(** [input.body || {}] *)
Definition body_or_empty (b : js WebhookBody) : WebhookBody :=
  match b with
  | val o => o
  | _ => empty_object
  end.

(** Shortcut utilizes labels to distinguish between changes and incidents. *)
Definition getEventType (this : ShortcutParser) (eventTypeInput : EventTypeInput)
  : result string :=
  let webhookbody := body_or_empty (body eventTypeInput) in
  if Nat.eqb (WebhookBody_keys_length webhookbody) 0
  then Throw MissingShortcutFieldsError
  else
    let* incident := hasIncidentLabel this (actions webhookbody) in
    if incident then Ok "incident" else Ok "change".

(** [actions.filter((action) => action?.action == kind).length > 0];
    reading [filter] of [undefined] or [null] throws. *)
Definition filter_action_nonempty (kind : string) (webhookActions : js (list Action))
  : result bool :=
  match webhookActions with
  | val l =>
      Ok (Nat.ltb 0 (List.length (filter (fun a => loose_eq_string (action a) kind) l)))
  | _ => Throw TypeError
  end.

(** The function that computes [event] in [getPayload]. *)
Definition getPayload_event (this : ShortcutParser)
  (webhookbody : WebhookBody) (body : StoryData) : result Event :=
  if loose_eq_true (completed body) then Ok closed
  else if loose_eq_true (archived body) then Ok closed
  else
    let* created := filter_action_nonempty "create" (actions webhookbody) in
    if created then
      let* incident := hasIncidentLabel this (actions webhookbody) in
      if incident then Ok labeled else Ok opened
    else
      let* updated := filter_action_nonempty "update" (actions webhookbody) in
      if updated then
        let* added :=
          hasLabelId "adds" (shortcutIncidentLabelId this) (actions webhookbody) in
        if added then Ok labeled
        else
          let* removed :=
            hasLabelId "removes" (shortcutIncidentLabelId this)
                       (actions webhookbody) in
          if removed then Ok unlabeled else Ok opened
      else Ok unknown.

Definition handleOpenedLabeled (webhook : WebhookBody) (body : StoryData) : EventDto :=
  {| eventTime := changed_at webhook;
     timeCreated := convertDateToUnixTimestamp (created_at body);
     timeResolved := None;
     id := template_js (story_id body);
     title := name body;
     message := JSON_stringify body |}.

Definition handleTimeResolved (w : World) (body : StoryData) : string :=
  if orb (truthy_bool (completed body)) (truthy_bool (archived body))
  then convertDateToUnixTimestamp
         (or_string (opt_toString (completed_at_override body))
                    (opt_toString (completed_at body)))
  else JS.Number_toString (Date_now w).

Definition handleClosedUnlabeled (w : World) (webhook : WebhookBody) (body : StoryData)
  : EventDto :=
  {| eventTime := changed_at webhook;
     timeCreated := convertDateToUnixTimestamp (created_at body);
     timeResolved := Some (handleTimeResolved w body);
     id := template_js (story_id body);
     title := name body;
     message := JSON_stringify body |}.

Definition UNKNOWN_dto : EventDto :=
  {| eventTime := val "UNKNOWN";
     timeCreated := "UNKNOWN";
     timeResolved := Some "UNKNOWN";
     id := "UNKNOWN";
     title := val "UNKNOWN";
     message := "UNKNOWN" |}.

(** Get payload fields from the right places. *)
Definition getPayload (this : ShortcutParser) (w : World) (payloadInput : PayloadInput)
  : result EventDto :=
  let webhookbody := body_or_empty (body payloadInput) in
  if Nat.eqb (WebhookBody_keys_length webhookbody) 0
  then Throw MissingShortcutFieldsError
  else
    let* body := getStoryData this w webhookbody in
    let* event := getPayload_event this webhookbody body in
    match event with
    | opened | labeled => Ok (handleOpenedLabeled webhookbody body)
    | closed | unlabeled => Ok (handleClosedUnlabeled w webhookbody body)
    | unknown => Ok UNKNOWN_dto
    end.

End ShortcutParser.

(** A [YYYYMMDD] string that names a day of the calendar. *)
Definition is_leap_year (y : Z) : bool :=
  andb (y mod 4 =? 0) (orb (negb (y mod 100 =? 0)) (y mod 400 =? 0)).

Definition days_in_month (y m : Z) : Z :=
  if m =? 2 then (if is_leap_year y then 29 else 28)
  else if orb (orb (m =? 4) (m =? 6)) (orb (m =? 9) (m =? 11)) then 30
  else 31.

Definition valid_input_date (d : string) : bool :=
  match list_ascii_of_string d with
  | [y1; y2; y3; y4; m1; m2; d1; d2] =>
      match JS.num4 y1 y2 y3 y4, JS.num2 m1 m2, JS.num2 d1 d2 with
      | Some y, Some m, Some dd =>
          andb (andb (1 <=? m) (m <=? 12))
               (andb (1 <=? dd) (dd <=? days_in_month y m))
      | _, _, _ => false
      end
  | _ => false
  end.

(** The text [createTimezoneConvertedDateString] puts after the date: the
    time of day, then the flipped offset. *)
Definition time_text (lastPossibleTime : bool) : string :=
  if lastPossibleTime then "T23:59:59.999" else "T00:00:00.000".

Definition offset_text (offsetInHours : Z) : string :=
  (if JS.includes "-" (JS.Number_toString offsetInHours) then "+" else "-")
  ++ (if Nat.eqb (String.length
                    (JS.remove_first "-" (JS.Number_toString offsetInHours))) 1
      then "0" else "")
  ++ JS.remove_first "-" (JS.Number_toString offsetInHours) ++ ":00".

(** ** Vocabulary of the statements about the parser *)




Definition some_action (P : Action -> Prop) (l : list Action) : Prop :=
  exists a, In a l /\ P a.

Definition is_kind (kind : string) (a : Action) : Prop :=
  action a = val kind.

(** The body of the input is missing, or is an object without keys. *)
Definition missing_or_empty (b : js WebhookBody) : Prop :=
  match b with
  | val o => WebhookBody_keys_length o = 0%nat
  | _ => True
  end.

(** A string of decimal digits, as an epoch timestamp is printed. *)
Definition decimal_text (s : string) : bool :=
  match s with
  | EmptyString => false
  | _ => forallb (fun c => match JS.digit c with Some _ => true | None => false end)
                 (list_ascii_of_string s)
  end.

(** ** Sample data

    An instance of the two library functions, to run the parser on
    examples: dates are handed back as they are and the story is not
    printed. *)
Definition sample_convert (x : js string) : string :=
  match x with
  | val s => s
  | _ => "NaN"
  end.

Definition sample_stringify (_ : StoryData) : string := "{}".

Definition parser7 : ShortcutParser :=
  {| shortcutIncidentLabelId := 7; shortcutToken := "token" |}.

(** A story with the given [completed] and [archived] flags. *)
Definition story_with (c a : js bool) : StoryData :=
  {| story_id := val 123; name := val "A story";
     created_at := val "2023-01-01T00:00:00Z";
     completed := c; archived := a;
     completed_at_override := null; completed_at := null;
     story_other_keys := [] |}.

Definition open_story : StoryData := story_with (val false) (val false).

(** The API answers every request with [story]; the clock reads
    1674738071848 ms, that is 2023-01-26T13:01:11.848Z. *)
Definition world_with (story : StoryData) : World :=
  {| fetch := fun _ _ => Ok (val story); Date_now := 1674738071848 |}.

(** An action of the given kind, with [label_ids] and with [changes] when
    there is a delta. *)
Definition action_of (kind : string) (labels : js (list Z)) (delta : js LabelIdChanges)
  : Action :=
  {| action := val kind; label_ids := labels;
     changes := match delta with
                | undefined => undefined
                | _ => val {| changes_label_ids := delta |}
                end |}.

(** The body [{"primary_id": "123", "changed_at": "2023-01-26T13:01:11Z",
    "actions": acts}]. *)
Definition webhook_of (acts : js (list Action)) : WebhookBody :=
  {| primary_id := val "123"; changed_at := val "2023-01-26T13:01:11Z";
     actions := acts; other_keys := [] |}.

(** A webhook that creates a story already carrying the incident label:
    actions [{"action": "create", "label_ids": [7]}]. *)
Definition create_with_label : WebhookBody :=
  webhook_of (val [action_of "create" (val [7]) undefined]).


(** A webhook that removes the incident label from a story: actions
    [{"action": "update", "changes": {"label_ids": {"removes": [7]}}}]. *)
Definition update_unlabel : WebhookBody :=
  webhook_of
    (val [action_of "update" undefined
            (val {| adds := undefined; removes := val [7] |})]).

(** A webhook whose only action is neither a create nor an update:
    actions [{"action": "delete"}]. *)
Definition delete_story : WebhookBody :=
  webhook_of (val [action_of "delete" undefined undefined]).


(** A body that is not empty and has no [primary_id]: keys [changed_at],
    [actions], [id] and [version]. *)
Definition body_without_id : WebhookBody :=
  {| primary_id := undefined; changed_at := val "2023-01-26T13:01:11Z";
     actions := val []; other_keys := ["id"; "version"] |}.

(** ** The constructor of the Shortcut parser *)

(** The two variables the constructor reads from [process.env]. *)
Record Env : Type := {
  SHORTCUT_TOKEN : js string;
  SHORTCUT_INCIDENT_LABEL_ID : js string
}.

(** [new ShortcutConfigurationError(name)]. *)
Inductive configuration_error : Type :=
| ShortcutConfigurationError (variable : string).

Section Constructor.

(** The global [parseInt], on a variable of the environment; [None] is
    [NaN]. *)
Variable parseInt : js string -> option Z.

Definition parseIntValue (value : js string) (defaultValue : Z) : Z :=
  match parseInt value with
  | None => defaultValue
  | Some parsed => parsed
  end.

(** [x ?? ''] *)
Definition or_empty (x : js string) : string :=
  match x with
  | val s => s
  | _ => ""
  end.

Definition constructor (env : Env) : configuration_error + ShortcutParser :=
  let shortcutToken := or_empty (SHORTCUT_TOKEN env) in
  if orb (String.eqb shortcutToken "") (String.eqb shortcutToken "undefined")
  then inl (ShortcutConfigurationError "SHORTCUT_TOKEN")
  else
    let shortcutIncidentLabelId :=
      parseIntValue (SHORTCUT_INCIDENT_LABEL_ID env) 0 in
    if shortcutIncidentLabelId =? 0
    then inl (ShortcutConfigurationError "SHORTCUT_INCIDENT_LABEL_ID")
    else inr {| shortcutIncidentLabelId := shortcutIncidentLabelId;
                shortcutToken := shortcutToken |}.

End Constructor.

(** A [parseInt] for the examples: it reads plain decimal digits. *)
Definition sample_parseInt (x : js string) : option Z :=
  match x with
  | val s =>
      match NilZero.int_of_string s with
      | Some d => if decimal_text s then Some (Z.of_int d) else None
      | None => None
      end
  | _ => None
  end.

Definition sample_env : Env :=
  {| SHORTCUT_TOKEN := val "token"; SHORTCUT_INCIDENT_LABEL_ID := val "7" |}.

(** ** More of [infrastructure/frameworks/time.ts] *)


(** [s.replaceAll(c, '')] for a one-character pattern. *)
Fixpoint remove_all (c : ascii) (s : string) : string :=
  match s with
  | EmptyString => EmptyString
  | String a r => if Ascii.eqb a c then remove_all c r else String a (remove_all c r)
  end.

(** The text of eight characters and its ISO form. *)
Definition text8 (y1 y2 y3 y4 m1 m2 d1 d2 : ascii) : string :=
  string_of_list_ascii [y1; y2; y3; y4; m1; m2; d1; d2].

Definition iso10 (y1 y2 y3 y4 m1 m2 d1 d2 : ascii) : string :=
  string_of_list_ascii [y1; y2; y3; y4; "-"%char; m1; m2; "-"%char; d1; d2].

(** Every character of the string is a decimal digit. *)
Definition all_digits (s : string) : bool :=
  forallb (fun c => match JS.digit c with Some _ => true | None => false end)
          (list_ascii_of_string s).

(** ** More of the JavaScript runtime *)

Module Runtime.

(** The white space [parseInt] skips, as far as it is ASCII: tab, line
    feed, vertical tab, form feed, carriage return and space. *)
Definition is_white_space (c : ascii) : bool :=
  let n := nat_of_ascii c in
  orb (andb (Nat.leb 9 n) (Nat.leb n 13)) (Nat.eqb n 32).

Fixpoint trim_start (s : string) : string :=
  match s with
  | EmptyString => EmptyString
  | String c r => if is_white_space c then trim_start r else s
  end.

Definition hex_digit (c : ascii) : option Z :=
  let n := nat_of_ascii c in
  if andb (Nat.leb 48 n) (Nat.leb n 57) then Some (Z.of_nat (n - 48))
  else if andb (Nat.leb 65 n) (Nat.leb n 70) then Some (Z.of_nat (n - 55))
  else if andb (Nat.leb 97 n) (Nat.leb n 102) then Some (Z.of_nat (n - 87))
  else None.

(** The value of the longest prefix of digits, read from [acc] on. *)
Fixpoint digits_value (radix : Z) (dig : ascii -> option Z) (s : string) (acc : Z) : Z :=
  match s with
  | EmptyString => acc
  | String c r =>
      match dig c with
      | Some k => digits_value radix dig r (acc * radix + k)
      | None => acc
      end
  end.

Definition starts_with_digit (dig : ascii -> option Z) (s : string) : bool :=
  match s with
  | EmptyString => false
  | String c _ => match dig c with Some _ => true | None => false end
  end.

Definition parseInt_digits (negative : bool) (radix : Z) (dig : ascii -> option Z)
  (s : string) : option Z :=
  if starts_with_digit dig s
  then Some ((if negative then -1 else 1) * digits_value radix dig s 0)
  else None.

(** After the sign: a prefix [0x] or [0X] selects radix 16. *)
Definition parseInt_unsigned (negative : bool) (s : string) : option Z :=
  match s with
  | String z (String x r) =>
      if andb (Ascii.eqb z "0") (orb (Ascii.eqb x "x") (Ascii.eqb x "X"))
      then parseInt_digits negative 16 hex_digit r
      else parseInt_digits negative 10 JS.digit s
  | _ => parseInt_digits negative 10 JS.digit s
  end.

(** [parseInt(s)] without a radix; [None] is [NaN].  The value is exact
    as long as it is a safe integer. *)
Definition parseInt (s : string) : option Z :=
  match trim_start s with
  | String c r =>
      if Ascii.eqb c "-" then parseInt_unsigned true r
      else if Ascii.eqb c "+" then parseInt_unsigned false r
      else parseInt_unsigned false (String c r)
  | EmptyString => None
  end.

(** [new Date(x).getTime()] for a number [x]: a time value beyond
    8.64e15 ms on either side of the epoch is not a date. *)
Definition Date_of_number (x : option Z) : option Z :=
  match x with
  | Some t => if Z.abs t <=? 8640000000000000 then Some t else None
  | None => None
  end.

End Runtime.

(** ** [getTimestampsForPeriod] *)

Record Period : Type := {
  from : string;
  to : string
}.

Section Period.

(** [getDateBefore] of [./date] and [getMillisecondsForDays] of
    [./getMillisecondsForDays] are used as they are. *)
Variable getDateBefore : bool -> string.
Variable getMillisecondsForDays : Z -> Z.

(** Calculates [from] and [to] timestamps for a provided period in days. *)
Definition getTimestampsForPeriod (lastNumDays offsetInHours : Z) : result Period :=
  let* toTime := getTimestampForInputDate (getDateBefore true) offsetInHours true in
  let fromTime :=
    Runtime.Date_of_number
      (match Runtime.parseInt (toTime ++ "999") with
       | Some n => Some (n - getMillisecondsForDays lastNumDays + 1)
       | None => None
       end) in
  Ok {| from := JS.substring 0 10 (JS.template_number fromTime);
        to := JS.substring 0 10 toTime |}.

End Period.

(** ** The [Date] object *)

Module DateObject.

Definition msPerDay : Z := 86400000.

Definition Day (t : Z) : Z := t / msPerDay.
Definition TimeWithinDay (t : Z) : Z := t mod msPerDay.

(** The civil date (year, month from 1, day of the month) of a day
    number counted from 1970-01-01, in the proleptic Gregorian calendar. *)
Definition civil_from_days (z : Z) : Z * Z * Z :=
  let z := z + 719468 in
  let era := z / 146097 in
  let doe := z - era * 146097 in
  let yoe := (doe - doe / 1460 + doe / 36524 - doe / 146096) / 365 in
  let y := yoe + era * 400 in
  let doy := doe - (365 * yoe + yoe / 4 - yoe / 100) in
  let mp := (5 * doy + 2) / 153 in
  let d := doy - (153 * mp + 2) / 5 + 1 in
  let m := if mp <? 10 then mp + 3 else mp - 9 in
  (if m <=? 2 then y + 1 else y, m, d).

Definition YearFromTime (t : Z) : Z := fst (fst (civil_from_days (Day t))).
(** [MonthFromTime] counts the months from 0. *)
Definition MonthFromTime (t : Z) : Z := snd (fst (civil_from_days (Day t))) - 1.
Definition DateFromTime (t : Z) : Z := snd (civil_from_days (Day t)).

(** [MakeDay(year, month, date)]: the day number of the first of the
    month, plus [date - 1]. *)
Definition MakeDay (year month date : Z) : Z :=
  JS.days_from_civil (year + month / 12) (month mod 12 + 1) 1 + date - 1.

Definition MakeDate (day time : Z) : Z := day * msPerDay + time.

Definition TimeClip (t : Z) : option Z :=
  if Z.abs t <=? 8640000000000000 then Some t else None.

(** [date.getUTCDate()]; [None] is [NaN]. *)
Definition getUTCDate (t : option Z) : option Z :=
  match t with
  | Some t => Some (DateFromTime t)
  | None => None
  end.

(** The time value of the date after [date.setUTCDate(dt)]. *)
Definition setUTCDate (t : option Z) (dt : option Z) : option Z :=
  match t, dt with
  | Some t, Some dt =>
      TimeClip (MakeDate (MakeDay (YearFromTime t) (MonthFromTime t) dt)
                         (TimeWithinDay t))
  | _, _ => None
  end.

Definition digit_char (k : Z) : ascii :=
  match k with
  | 0 => "0" | 1 => "1" | 2 => "2" | 3 => "3" | 4 => "4"
  | 5 => "5" | 6 => "6" | 7 => "7" | 8 => "8" | _ => "9"
  end.

Definition pad2 (n : Z) : string :=
  String (digit_char (n / 10)) (String (digit_char (n mod 10)) "").

Definition pad3 (n : Z) : string :=
  String (digit_char (n / 100)) (pad2 (n mod 100)).

Definition pad4 (n : Z) : string :=
  String (digit_char (n / 1000)) (pad3 (n mod 1000)).

Definition pad6 (n : Z) : string := pad2 (n / 10000) ++ pad4 (n mod 10000).

(** The year of [toISOString]: four digits from 0 to 9999, a sign and six
    digits otherwise. *)
Definition iso_year (y : Z) : string :=
  if andb (0 <=? y) (y <=? 9999) then pad4 y
  else if y <? 0 then String "-" (pad6 (- y))
  else String "+" (pad6 y).

(** [date.toISOString()]; [None] stands for the [RangeError] thrown for
    an invalid date. *)
Definition toISOString (t : option Z) : option string :=
  match t with
  | None => None
  | Some t =>
      let '(y, m, d) := civil_from_days (Day t) in
      let ms := TimeWithinDay t in
      Some (iso_year y ++ "-" ++ pad2 m ++ "-" ++ pad2 d ++ "T"
            ++ pad2 (ms / 3600000) ++ ":" ++ pad2 (ms / 60000 mod 60) ++ ":"
            ++ pad2 (ms / 1000 mod 60) ++ "." ++ pad3 (ms mod 1000) ++ "Z")
  end.

End DateObject.

(** ** [getMaxTimestampFromDate] *)

(** What [getMaxTimestampFromDate] throws: the [RangeError] of
    [toISOString], or an error of [getTimestampForInputDate]. *)
Inductive time_error : Type :=
| RangeError
| Thrown (e : error).

Section MaxTimestamp.

(** The time value of [new Date(getCurrentDate())], with [getCurrentDate]
    of [./date] used as it is. *)
Variable current_date : option Z.

(** Get maximum historical/past timestamp at midnight X number of days ago. *)
Definition getMaxTimestampFromDate (maxDateRange offset : Z) : time_error + string :=
  let date := current_date in
  let date :=
    DateObject.setUTCDate date
      (match DateObject.getUTCDate date with
       | Some dt => Some (dt - maxDateRange)
       | None => None
       end) in
  match DateObject.toISOString date with
  | None => inl RangeError
  | Some iso =>
      match getTimestampForInputDate
              (remove_all "-" (JS.substring 0 10 iso)) offset false with
      | Ok timestamp => inr timestamp
      | Throw e => inl (Thrown e)
      end
  end.

End MaxTimestamp.

(** The check of one day of the 400-year cycle that starts on 0000-03-01:
    its civil date is in range and leads back to the day, and the year is
    400 from the first of January on. *)
Definition cycle_day_ok (doe : Z) : bool :=
  let '(y, m, d) := DateObject.civil_from_days (doe - 719468) in
  andb (andb (andb (1 <=? m) (m <=? 12)) (andb (1 <=? d) (d <=? 31)))
       (andb (JS.days_from_civil y m d =? doe - 719468)
             (if 146037 <=? doe then y =? 400 else andb (0 <=? y) (y <=? 399))).

(** The check of one row of 383 days of the cycle; 383 rows cover it. *)
Definition cycle_row_ok (i : Z) : bool :=
  forallb
    (fun j =>
       let doe := 383 * i + j in
       orb (146097 <=? doe) (cycle_day_ok doe))
    (map Z.of_nat (seq 0 383)).

(** The check that a character read as a digit other than 0 is no white
    space, no sign and not the character 0. *)
Definition leading_char_ok (n : nat) : bool :=
  let c := ascii_of_nat n in
  match JS.digit c with
  | Some k =>
      orb (k =? 0)
          (andb (negb (Runtime.is_white_space c))
             (andb (negb (Ascii.eqb c "-"))
                (andb (negb (Ascii.eqb c "+")) (negb (Ascii.eqb c "0")))))
  | None => true
  end.

Definition leading_chars_ok : bool := forallb leading_char_ok (seq 0 256).

(** ** The local repository
    ([infrastructure/repositories/LocalRepository.ts]) *)

(** [s.split(c)] for a one-character separator. *)
Fixpoint split_on (c : ascii) (s : string) : list string :=
  match s with
  | EmptyString => [EmptyString]
  | String a r =>
      if Ascii.eqb a c then EmptyString :: split_on c r
      else
        match split_on c r with
        | h :: t => String a h :: t
        | [] => [String a EmptyString]
        end
  end.

Module LocalRepository.

Section LocalRepo.

(** The interfaces [Change], [Deployment] and [Incident], of which the
    repository reads the property [product]; [toLowerCase] of strings;
    the arrays of [testdata/TestDatabase]. *)
Variables Change Deployment Incident : Type.
Variable change_product : Change -> string.
Variable deployment_product : Deployment -> string.
Variable incident_product : Incident -> string.
Variable toLowerCase : string -> string.
Variable test_changes : list Change.
Variable test_deployments : list Deployment.
Variable test_incidents : list Incident.

Record TestData : Type := {
  td_changes : js (list Change);
  td_deployments : js (list Deployment);
  td_incidents : js (list Incident)
}.

Record LocalRepo : Type := {
  changes : list Change;
  deployments : list Deployment;
  incidents : list Incident
}.

(** An entry of the array [getItem] returns. *)
Inductive Item : Type :=
| a_change (c : Change)
| a_deployment (d : Deployment)
| an_incident (i : Incident).

Definition product (it : Item) : string :=
  match it with
  | a_change c => change_product c
  | a_deployment d => deployment_product d
  | an_incident i => incident_product i
  end.

Record DataRequest : Type := {
  key : string
}.

(** [x ? x : d] on an optional array: an array is truthy. *)
Definition or_default {A : Type} (x : js (list A)) (d : list A) : list A :=
  match x with
  | val l => l
  | _ => d
  end.

Definition constructor (testData : js TestData) : LocalRepo :=
  match testData with
  | val t =>
      {| changes := or_default (td_changes t) test_changes;
         deployments := or_default (td_deployments t) test_deployments;
         incidents := or_default (td_incidents t) test_incidents |}
  | _ =>
      {| changes := test_changes; deployments := test_deployments;
         incidents := test_incidents |}
  end.

(** Get data from local cache: the keys and values of the object that is
    returned, always [{}]. *)
Definition getCachedData (key : string) : list (string * string) := [].

(** [item.product === repoName], where [repoName] is [undefined] when the
    key has no second part. *)
Definition product_is (repoName : option string) (p : string) : bool :=
  match repoName with
  | Some r => String.eqb p r
  | None => false
  end.

Definition getItem (this : LocalRepo) (dataRequest : DataRequest) : list Item :=
  let key := key dataRequest in
  let repoName := nth_error (split_on "_" key) 1 in
  if String.prefix "change_" (toLowerCase key)
  then map a_change
         (filter (fun item => product_is repoName (change_product item))
                 (changes this))
  else if String.prefix "deployment_" (toLowerCase key)
  then map a_deployment
         (filter (fun item => product_is repoName (deployment_product item))
                 (deployments this))
  else if String.prefix "incident_" (toLowerCase key)
  then map an_incident
         (filter (fun item => product_is repoName (incident_product item))
                 (incidents this))
  else [].

(** Get metrics for a given repository and a period of time: the cached
    object when it has keys, the items otherwise. *)
Definition getMetrics (this : LocalRepo) (dataRequest : DataRequest)
  : list (string * string) + list Item :=
  let cachedData := getCachedData (key dataRequest) in
  if negb (Nat.eqb (List.length cachedData) 0) then inl cachedData
  else inr (getItem this dataRequest).

End LocalRepo.

End LocalRepository.

(** The character [c] does not occur in [s]. *)
Definition without (c : ascii) (s : string) : Prop :=
  JS.includes c s = false.

(** ** Decimal notation *)

(** The number written by the digits [d] after the number [acc]. *)
Fixpoint horner (acc : Z) (d : Decimal.uint) : Z :=
  match d with
  | Decimal.Nil => acc
  | Decimal.D0 l => horner (10 * acc) l
  | Decimal.D1 l => horner (10 * acc + 1) l
  | Decimal.D2 l => horner (10 * acc + 2) l
  | Decimal.D3 l => horner (10 * acc + 3) l
  | Decimal.D4 l => horner (10 * acc + 4) l
  | Decimal.D5 l => horner (10 * acc + 5) l
  | Decimal.D6 l => horner (10 * acc + 6) l
  | Decimal.D7 l => horner (10 * acc + 7) l
  | Decimal.D8 l => horner (10 * acc + 8) l
  | Decimal.D9 l => horner (10 * acc + 9) l
  end.

(** The digit [k], from 0 to 9, in front of the digits [l]. *)
Definition cons_digit (k : Z) (l : Decimal.uint) : Decimal.uint :=
  match k with
  | 0 => Decimal.D0 l
  | 1 => Decimal.D1 l
  | 2 => Decimal.D2 l
  | 3 => Decimal.D3 l
  | 4 => Decimal.D4 l
  | 5 => Decimal.D5 l
  | 6 => Decimal.D6 l
  | 7 => Decimal.D7 l
  | 8 => Decimal.D8 l
  | _ => Decimal.D9 l
  end.

(** The three digits of a number below 1000. *)
Definition digits3 (r : Z) : Decimal.uint :=
  cons_digit (r / 100) (cons_digit (r / 10 mod 10) (cons_digit (r mod 10) Decimal.Nil)).

(** * Properties of the timestamp helpers *)

Section TimeFacts.

Lemma substring_prefix (a b : string) :
  String.substring 0 (String.length a) (a ++ b) = a.
Proof.
  induction a as [|c a IH]; simpl.
  - destruct b; reflexivity.
  - now rewrite IH.
Qed.

Lemma substring_skip (a b : string) (n : nat) :
  String.substring (String.length a) n (a ++ b) = String.substring 0 n b.
Proof.
  induction a as [|c a IH]; simpl; [reflexivity | exact IH].
Qed.

Lemma substring_all (a : string) :
  String.substring 0 (String.length a) a = a.
Proof.
  induction a as [|c a IH]; simpl; [reflexivity | now rewrite IH].
Qed.

Lemma length_app (a b : string) :
  String.length (a ++ b) = (String.length a + String.length b)%nat.
Proof.
  induction a as [|c a IH]; simpl; [reflexivity | now rewrite IH].
Qed.

Lemma app_assoc_string (a b c : string) : (a ++ b) ++ c = a ++ b ++ c.
Proof.
  induction a as [|x a IH]; simpl; [reflexivity | now rewrite IH].
Qed.

Lemma createTimezoneConvertedDateString_parts f h l :
  createTimezoneConvertedDateString f h l = f ++ time_text l ++ offset_text h.
Proof. reflexivity. Qed.

Lemma Date_getTime_parts (d t o : string) :
  String.length d = 10%nat -> String.length t = 13%nat ->
  JS.Date_getTime (d ++ t ++ o) =
    match JS.parse_date d, JS.parse_time t, JS.parse_offset o with
    | Some days, Some ms, Some off => Some (days * 86400000 + ms - off)
    | _, _, _ => None
    end.
Proof.
  intros Hd Ht. unfold JS.Date_getTime.
  assert (E1 : String.substring 0 10 (d ++ t ++ o) = d)
    by (rewrite <- Hd; apply substring_prefix).
  assert (E2 : String.substring 10 13 (d ++ t ++ o) = t).
  { rewrite <- Ht, <- Hd, substring_skip. apply substring_prefix. }
  assert (E3 : String.substring 23 (String.length (d ++ t ++ o) - 23) (d ++ t ++ o) = o).
  { rewrite !length_app, Hd, Ht.
    replace (10 + (13 + String.length o) - 23)%nat with (String.length o) by lia.
    replace 23%nat with (String.length (d ++ t)) by (rewrite length_app; lia).
    rewrite <- app_assoc_string, substring_skip. apply substring_all. }
  now rewrite E1, E2, E3.
Qed.

Lemma parse_time_text l :
  JS.parse_time (time_text l) = Some (if l then 86399999 else 0).
Proof. destruct l; reflexivity. Qed.

(** Every whole-hour offset of at most 23 hours gives a well-formed
    offset text; its sign is the opposite of the sign of the input. *)
Lemma parse_offset_text h :
  -23 <= h <= 23 ->
  JS.parse_offset (offset_text h) = Some (- (h * 3600000)).
Proof.
  intros Hh. destruct h as [|p|p].
  - reflexivity.
  - repeat (destruct p as [p|p|]; try lia); reflexivity.
  - repeat (destruct p as [p|p|]; try lia); reflexivity.
Qed.

Lemma valid_input_date_iso d :
  valid_input_date d = true ->
  exists iso days,
    convertToIsoDate d = Ok iso /\ String.length iso = 10%nat /\
    JS.parse_date iso = Some days.
Proof.
  unfold valid_input_date. intros H.
  destruct d as [|y1 [|y2 [|y3 [|y4 [|m1 [|m2 [|d1 [|d2 [|x r]]]]]]]]];
    try discriminate H.
  simpl in H.
  destruct (JS.num4 y1 y2 y3 y4) as [y|] eqn:Ey; [|discriminate H].
  destruct (JS.num2 m1 m2) as [m|] eqn:Em; [|discriminate H].
  destruct (JS.num2 d1 d2) as [dd|] eqn:Ed; [|discriminate H].
  apply andb_prop in H as [Hm Hd].
  apply andb_prop in Hd as [Hd1 Hd2].
  exists (String y1 (String y2 (String y3 (String y4 (String "-"
           (String m1 (String m2 (String "-" (String d1 (String d2 "")))))))))).
  exists (JS.days_from_civil y m dd).
  split; [reflexivity|]. split; [reflexivity|].
  unfold JS.parse_date. cbn [list_ascii_of_string].
  change (Ascii.eqb "-" "-") with true. cbn [andb].
  rewrite Ey, Em, Ed, Hm, Hd1. cbn [andb].
  assert (Hle : (dd <=? 31) = true).
  { apply Z.leb_le. apply Z.leb_le in Hd2.
    unfold days_in_month in Hd2.
    destruct (m =? 2); [destruct (is_leap_year y); lia|].
    destruct (orb _ _); lia. }
  now rewrite Hle.
Qed.

Lemma getTimestampForISODate_offset iso days h l :
  String.length iso = 10%nat -> JS.parse_date iso = Some days ->
  -23 <= h <= 23 ->
  getTimestampForISODate iso h l =
    Some (days * 86400 + (if l then 86399 else 0) + 3600 * h).
Proof.
  intros Hlen Hdate Hh. unfold getTimestampForISODate.
  rewrite createTimezoneConvertedDateString_parts.
  rewrite Date_getTime_parts; [|assumption|now destruct l].
  rewrite Hdate, parse_time_text, parse_offset_text by assumption.
  unfold JS.floor_div_1000. f_equal.
  destruct l.
  - replace (days * 86400000 + 86399999 - - (h * 3600000))
      with (999 + (days * 86400 + 86399 + 3600 * h) * 1000) by lia.
    rewrite Z.div_add by lia. reflexivity.
  - replace (days * 86400000 + 0 - - (h * 3600000))
      with ((days * 86400 + 0 + 3600 * h) * 1000) by lia.
    rewrite Z.div_mul by lia. reflexivity.
Qed.

End TimeFacts.

(** C7. [getTimestampForInputDate] of the date 20230101 with offset 0
    returns the Unix timestamp in seconds 1672531200 (as a string). *)
Theorem getTimestampForInputDate_20230101 :
  getTimestampForInputDate "20230101" 0 false = Ok "1672531200".
Proof. reflexivity. Qed.

(** C8, as stated, fails: with the offset 100 the date string that is
    built has a three-digit hour offset, the date is invalid and the
    result is the text NaN, not the timestamp of offset 0 plus 360000. *)
Lemma getTimestampForInputDate_offset_100 :
  valid_input_date "20230101" = true /\
  getTimestampForInputDate "20230101" 0 false = Ok (JS.Number_toString 1672531200) /\
  getTimestampForInputDate "20230101" 100 false = Ok "NaN" /\
  getTimestampForInputDate "20230101" 100 false
    <> Ok (JS.Number_toString (1672531200 + 3600 * 100)).
Proof.
  split; [reflexivity|]. split; [reflexivity|]. split; [reflexivity|].
  vm_compute. discriminate.
Qed.

(** C8, amended. For every valid 8-digit date [d] and every whole-hour
    offset [h] between -23 and 23, the timestamp returned for [h] is the
    timestamp returned for offset 0 plus [3600 * h]: the sign of the
    offset is applied flipped. *)
Theorem getTimestampForInputDate_offset (d : string) (h : Z) :
  valid_input_date d = true ->
  -23 <= h <= 23 ->
  exists t0 : Z,
    getTimestampForInputDate d 0 false = Ok (JS.Number_toString t0) /\
    getTimestampForInputDate d h false = Ok (JS.Number_toString (t0 + 3600 * h)).
Proof.
  intros Hd Hh.
  destruct (valid_input_date_iso d Hd) as (iso & days & Hiso & Hlen & Hdate).
  exists (days * 86400).
  unfold getTimestampForInputDate. rewrite Hiso. cbn [bind].
  rewrite !(getTimestampForISODate_offset iso days) by (assumption || lia).
  cbn [JS.template_number]. split; do 2 f_equal; lia.
Qed.

Lemma getTimestampForInputDate_offset_witness :
  exists t0 : Z,
    getTimestampForInputDate "20230101" 0 false = Ok (JS.Number_toString t0) /\
    getTimestampForInputDate "20230101" (-4) false
      = Ok (JS.Number_toString (t0 + 3600 * (-4))).
Proof.
  apply (getTimestampForInputDate_offset "20230101" (-4)); [reflexivity | lia].
Defined.

(** * Properties of the Shortcut parser *)

Section LabelMatcher.

Lemma filter_nonempty_iff {A : Type} (f : A -> bool) (l : list A) :
  Nat.ltb 0 (List.length (filter f l)) = true <-> exists x, In x l /\ f x = true.
Proof.
  rewrite Nat.ltb_lt. split.
  - intros H. destruct (filter f l) as [|x r] eqn:E; [simpl in H; lia|].
    exists x. apply filter_In. rewrite E. now left.
  - intros (x & Hin & Hf).
    assert (Hx : In x (filter f l)) by (apply filter_In; now split).
    destruct (filter f l); [contradiction | simpl; lia].
Qed.





Lemma filter_action_nonempty_iff (kind : string) (l : list Action) :
  Nat.ltb 0 (List.length (filter (fun a => loose_eq_string (action a) kind) l)) = true
  <-> some_action (is_kind kind) l.
Proof.
  rewrite filter_nonempty_iff. unfold some_action, is_kind.
  split; intros (a & Hin & Ha); exists a; (split; [assumption|]).
  - destruct (action a) as [| |s]; try discriminate Ha.
    simpl in Ha. apply String.eqb_eq in Ha. now subst.
  - rewrite Ha. simpl. apply String.eqb_refl.
Qed.

End LabelMatcher.


Section Classifier.

Variable convertDateToUnixTimestamp : js string -> string.
Variable JSON_stringify : StoryData -> string.

Local Abbreviation payload := (getPayload convertDateToUnixTimestamp JSON_stringify).
Local Abbreviation opened_dto :=
  (handleOpenedLabeled convertDateToUnixTimestamp JSON_stringify).
Local Abbreviation closed_dto :=
  (handleClosedUnlabeled convertDateToUnixTimestamp JSON_stringify).



Lemma loose_eq_true_false (x : js bool) : x <> val true -> loose_eq_true x = false.
Proof. destruct x as [| |[|]]; simpl; congruence. Qed.

(** The event of a story that is neither completed nor archived, as a
    function of what the actions hold. *)
Lemma getPayload_event_open this wb story acts :
  completed story <> val true -> archived story <> val true ->
  actions wb = val acts ->
  getPayload_event this wb story =
    Ok (if Nat.ltb 0 (List.length
              (filter (fun a => loose_eq_string (action a) "create") acts))
        then if hasLabelId_loop "adds" (shortcutIncidentLabelId this) acts
             then labeled else opened
        else if Nat.ltb 0 (List.length
                   (filter (fun a => loose_eq_string (action a) "update") acts))
        then if hasLabelId_loop "adds" (shortcutIncidentLabelId this) acts
             then labeled
             else if hasLabelId_loop "removes" (shortcutIncidentLabelId this) acts
             then unlabeled else opened
        else unknown).
Proof.
  intros Hc Ha Hacts. unfold getPayload_event, hasIncidentLabel.
  rewrite (loose_eq_true_false _ Hc), (loose_eq_true_false _ Ha), Hacts. simpl.
  repeat match goal with |- context [if ?b then _ else _] => destruct b end;
    reflexivity.
Qed.


Lemma kind_false kind acts :
  ~ some_action (is_kind kind) acts ->
  Nat.ltb 0 (List.length (filter (fun a => loose_eq_string (action a) kind) acts)) = false.
Proof.
  intros H. destruct (Nat.ltb _ _) eqn:E; [|reflexivity].
  apply filter_action_nonempty_iff in E. contradiction.
Qed.




(** A closed event comes from a completed or archived story. *)
Lemma getPayload_event_closed_inv this wb story :
  getPayload_event this wb story = Ok closed ->
  orb (truthy_bool (completed story)) (truthy_bool (archived story)) = true.
Proof.
  unfold getPayload_event.
  change (loose_eq_true (completed story)) with (truthy_bool (completed story)).
  change (loose_eq_true (archived story)) with (truthy_bool (archived story)).
  destruct (truthy_bool (completed story)); [reflexivity|].
  destruct (truthy_bool (archived story)); [reflexivity|].
  unfold hasIncidentLabel, hasLabelId, filter_action_nonempty.
  destruct (actions wb); simpl; try discriminate.
  repeat match goal with |- context [if ?b then _ else _] => destruct b end;
    discriminate.
Qed.




(** C9. A missing or empty webhook body makes [getPayload] and
    [getEventType] throw the missing-fields error, whatever the parser
    and the world are; a body that is not empty and has no [primary_id]
    makes [getPayload] throw the missing-id error, in [getStoryData]. *)
Theorem missing_body_and_missing_id_errors this w (input : PayloadInput) :
  (missing_or_empty (body input) ->
   payload this w input = Throw MissingShortcutFieldsError /\
   getEventType this input = Throw MissingShortcutFieldsError) /\
  (forall wb, body input = val wb ->
     WebhookBody_keys_length wb <> 0%nat -> primary_id wb = undefined ->
     getStoryData this w wb = Throw MissingIdError /\
     payload this w input = Throw MissingIdError).
Proof.
  split.
  - unfold missing_or_empty, getPayload, getEventType.
    destruct (body input) as [| |wb]; simpl; intros H; try (split; reflexivity).
    rewrite H. split; reflexivity.
  - intros wb Hb Hk Hid. unfold getPayload, getStoryData.
    rewrite Hb. simpl body_or_empty.
    apply Nat.eqb_neq in Hk. rewrite Hk, Hid. split; reflexivity.
Qed.

End Classifier.


(** ** The parser on sample webhooks *)


Example create_without_label_opened :
  getPayload_event parser7 (webhook_of (val [action_of "create" undefined undefined]))
    open_story = Ok opened.
Proof. reflexivity. Qed.

Example update_adding_label_labeled :
  getPayload_event parser7
    (webhook_of (val [action_of "update" undefined
                        (val {| adds := val [3; 7]; removes := undefined |})]))
    open_story = Ok labeled.
Proof. reflexivity. Qed.

Example update_unlabel_unlabeled :
  getPayload_event parser7 update_unlabel open_story = Ok unlabeled.
Proof. reflexivity. Qed.

Example getEventType_incident :
  getEventType parser7 {| body := val create_with_label |} = Ok "incident".
Proof. reflexivity. Qed.

Example getEventType_change :
  getEventType parser7 {| body := val delete_story |} = Ok "change".
Proof. reflexivity. Qed.

Example getPayload_empty_body :
  getPayload sample_convert sample_stringify parser7 (world_with open_story)
    {| body := undefined |} = Throw MissingShortcutFieldsError.
Proof. reflexivity. Qed.










Lemma missing_body_and_missing_id_errors_witness :
  (getPayload sample_convert sample_stringify parser7 (world_with open_story)
     {| body := val empty_object |} = Throw MissingShortcutFieldsError /\
   getEventType parser7 {| body := val empty_object |}
     = Throw MissingShortcutFieldsError) /\
  (getStoryData parser7 (world_with open_story) body_without_id
     = Throw MissingIdError /\
   getPayload sample_convert sample_stringify parser7 (world_with open_story)
     {| body := val body_without_id |} = Throw MissingIdError).
Proof.
  split.
  - apply (proj1 (missing_body_and_missing_id_errors sample_convert sample_stringify
                    parser7 (world_with open_story) {| body := val empty_object |})).
    reflexivity.
  - apply (proj2 (missing_body_and_missing_id_errors sample_convert sample_stringify
                    parser7 (world_with open_story) {| body := val body_without_id |})
             body_without_id).
    + reflexivity.
    + vm_compute. discriminate.
    + reflexivity.
Defined.




(** * Further properties of the Shortcut parser *)

Section ParserBehaviour.

Variable convertDateToUnixTimestamp : js string -> string.
Variable JSON_stringify : StoryData -> string.

Local Abbreviation run_payload :=
  (getPayload convertDateToUnixTimestamp JSON_stringify).

(** The event of a story that is not closed, when the body has no
    [actions] to read. *)
Lemma getPayload_event_no_actions this wb story :
  loose_eq_true (completed story) = false ->
  loose_eq_true (archived story) = false ->
  (forall acts, actions wb <> val acts) ->
  getPayload_event this wb story = Throw TypeError.
Proof.
  intros Hc Ha Hn. unfold getPayload_event. rewrite Hc, Ha.
  destruct (actions wb) as [| |acts]; try reflexivity.
  now destruct (Hn acts).
Qed.

Lemma loose_eq_true_iff (x : js bool) : loose_eq_true x = true <-> x = val true.
Proof.
  destruct x as [| |[|]]; simpl; split; congruence.
Qed.

Lemma closed_event_iff this wb story :
  getPayload_event this wb story = Ok closed <->
  completed story = val true \/ archived story = val true.
Proof.
  split.
  - intros H. apply getPayload_event_closed_inv in H.
    apply orb_prop in H as [H | H]; [left | right];
      now apply loose_eq_true_iff.
  - intros [H | H]; unfold getPayload_event; rewrite H; simpl.
    + reflexivity.
    + now destruct (loose_eq_true (completed story)).
Qed.

(** The event is closed exactly for a completed or archived story,
    whatever the actions of the body are. *)
Theorem getPayload_event_closed_iff this wb story :
  getPayload_event this wb story = Ok closed <->
  completed story = val true \/ archived story = val true.
Proof. exact (closed_event_iff this wb story). Qed.

(** The event is unknown exactly when the story is neither completed nor
    archived and the actions hold no create and no update, whatever labels
    the actions carry. *)
Theorem getPayload_event_unknown_iff this wb story :
  getPayload_event this wb story = Ok unknown <->
  completed story <> val true /\ archived story <> val true /\
  exists acts, actions wb = val acts /\
    ~ some_action (is_kind "create") acts /\
    ~ some_action (is_kind "update") acts.
Proof.
  split.
  - intros H.
    assert (Hc : completed story <> val true).
    { intros E. assert (C : getPayload_event this wb story = Ok closed)
        by (apply closed_event_iff; now left). congruence. }
    assert (Ha : archived story <> val true).
    { intros E. assert (C : getPayload_event this wb story = Ok closed)
        by (apply closed_event_iff; now right). congruence. }
    split; [assumption|]. split; [assumption|].
    destruct (actions wb) as [| |acts] eqn:Hacts.
    + rewrite getPayload_event_no_actions in H;
        try discriminate H; try (now apply loose_eq_true_false); congruence.
    + rewrite getPayload_event_no_actions in H;
        try discriminate H; try (now apply loose_eq_true_false); congruence.
    + exists acts. split; [reflexivity|].
      rewrite (getPayload_event_open this wb story acts Hc Ha Hacts) in H.
      split; intros Hk; apply filter_action_nonempty_iff in Hk;
        rewrite Hk in H;
        repeat match type of H with
          | context [if ?b then _ else _] => destruct b
          end; discriminate H.
  - intros (Hc & Ha & acts & Hacts & Hcreate & Hupdate).
    rewrite (getPayload_event_open this wb story acts Hc Ha Hacts).
    now rewrite (kind_false _ _ Hcreate), (kind_false _ _ Hupdate).
Qed.



(** [getEventType] and the event of [getPayload] agree: a labeled event
    is an incident, an opened and an unlabeled event are changes. *)
Theorem getEventType_agrees_with_event this wb story e :
  getPayload_event this wb story = Ok e ->
  (e = labeled -> getEventType this {| body := val wb |} = Ok "incident") /\
  (e = opened \/ e = unlabeled ->
   getEventType this {| body := val wb |} = Ok "change").
Proof.
  intros H.
  destruct (loose_eq_true (completed story)) eqn:Hc.
  { unfold getPayload_event in H. rewrite Hc in H.
    split; [intros -> | intros [-> | ->]]; discriminate H. }
  destruct (loose_eq_true (archived story)) eqn:Ha.
  { unfold getPayload_event in H. rewrite Hc, Ha in H.
    split; [intros -> | intros [-> | ->]]; discriminate H. }
  assert (Hc' : completed story <> val true)
    by (intros E; apply loose_eq_true_iff in E; congruence).
  assert (Ha' : archived story <> val true)
    by (intros E; apply loose_eq_true_iff in E; congruence).
  destruct (actions wb) as [| |acts] eqn:Hacts;
    try (rewrite getPayload_event_no_actions in H
           by (assumption || congruence); discriminate H).
  rewrite (getPayload_event_open this wb story acts Hc' Ha' Hacts) in H.
  assert (Hk : Nat.eqb (WebhookBody_keys_length wb) 0 = false).
  { unfold WebhookBody_keys_length. rewrite Hacts. simpl.
    apply Nat.eqb_neq. lia. }
  unfold getEventType, hasIncidentLabel. simpl body_or_empty.
  rewrite Hk, Hacts. simpl.
  destruct (hasLabelId_loop "adds" (shortcutIncidentLabelId this) acts);
    repeat match type of H with
      | context [if ?b then _ else _] => destruct b
      end;
    (split; [intros -> | intros [-> | ->]]); congruence.
Qed.


(** [getStoryData] succeeds exactly when the body has a non-empty
    [primary_id] and the one request, for the story of that id with the
    token of the parser, is answered by an object that has keys; it then
    returns that object. *)
Theorem getStoryData_ok_iff this w wb story :
  getStoryData this w wb = Ok story <->
  exists i,
    primary_id wb = val i /\ i <> "" /\
    fetch w ("https://api.app.shortcut.com/api/v3/stories/" ++ i)
          (shortcutToken this) = Ok (val story) /\
    StoryData_keys_length story <> 0%nat.
Proof.
  unfold getStoryData. split.
  - destruct (primary_id wb) as [| |i]; simpl; try discriminate.
    destruct (String.eqb_spec i ""); simpl; [discriminate|].
    destruct (fetch w _ _) as [[| |s]|] eqn:Hf; simpl; try discriminate.
    destruct (Nat.eqb_spec (StoryData_keys_length s) 0); [discriminate|].
    intros [= <-]. exists i. repeat split; (reflexivity || assumption).
  - intros (i & -> & Hi & -> & Hk). simpl.
    apply String.eqb_neq in Hi. rewrite Hi. simpl.
    apply Nat.eqb_neq in Hk. now rewrite Hk.
Qed.

End ParserBehaviour.

(** A parser that was constructed has a token that is neither empty nor
    the text undefined and an incident label id that is not 0, both as
    read from the environment; a label id that does not parse is refused
    like 0, and a bad token is reported before a bad label id. *)
Theorem constructor_invariant parseInt (env : Env) :
  match constructor parseInt env with
  | inr this =>
      SHORTCUT_TOKEN env = val (shortcutToken this) /\
      shortcutToken this <> "" /\ shortcutToken this <> "undefined" /\
      parseInt (SHORTCUT_INCIDENT_LABEL_ID env) = Some (shortcutIncidentLabelId this) /\
      shortcutIncidentLabelId this <> 0
  | inl (ShortcutConfigurationError v) =>
      (v = "SHORTCUT_TOKEN" /\
       (forall s, SHORTCUT_TOKEN env = val s -> s = "" \/ s = "undefined")) \/
      (v = "SHORTCUT_INCIDENT_LABEL_ID" /\
       (exists s, SHORTCUT_TOKEN env = val s /\ s <> "" /\ s <> "undefined") /\
       (parseInt (SHORTCUT_INCIDENT_LABEL_ID env) = None \/
        parseInt (SHORTCUT_INCIDENT_LABEL_ID env) = Some 0))
  end.
Proof.
  unfold constructor, parseIntValue.
  destruct (SHORTCUT_TOKEN env) as [| |t] eqn:Ht; simpl;
    try (left; split; [reflexivity | intros s; discriminate]).
  destruct (String.eqb_spec t ""); simpl.
  { left. split; [reflexivity | intros s [= <-]; now left]. }
  destruct (String.eqb_spec t "undefined"); simpl.
  { left. split; [reflexivity | intros s [= <-]; now right]. }
  destruct (parseInt (SHORTCUT_INCIDENT_LABEL_ID env)) as [z|] eqn:Hp.
  - destruct (Z.eqb_spec z 0); simpl.
    + right. split; [reflexivity|]. split; [now exists t | right; now subst].
    + repeat split; assumption.
  - simpl. right. split; [reflexivity|]. split; [now exists t | now left].
Qed.


(** * Further properties of the timestamp helpers *)

Section TimeBehaviour.

Lemma convertToIsoDate_8 d :
  String.length d = 8%nat ->
  exists y1 y2 y3 y4 m1 m2 d1 d2,
    d = text8 y1 y2 y3 y4 m1 m2 d1 d2 /\
    convertToIsoDate d = Ok (iso10 y1 y2 y3 y4 m1 m2 d1 d2).
Proof.
  intros H.
  destruct d as [|y1 [|y2 [|y3 [|y4 [|m1 [|m2 [|d1 [|d2 [|x r]]]]]]]]];
    try discriminate H.
  exists y1, y2, y3, y4, m1, m2, d1, d2. split; reflexivity.
Qed.

Lemma convertToIsoDate_length d iso :
  convertToIsoDate d = Ok iso ->
  String.length d = 8%nat /\ String.length iso = 10%nat.
Proof.
  unfold convertToIsoDate. intros H.
  destruct (String.eqb d ""); [discriminate H|].
  destruct (Nat.eqb_spec (String.length d) 8) as [E|E]; [|discriminate H].
  split; [assumption|].
  destruct (convertToIsoDate_8 d E) as (y1&y2&y3&y4&m1&m2&d1&d2&->&_).
  simpl in H. injection H as <-. reflexivity.
Qed.

(** [getTimestampForInputDate] throws exactly for an input that does not
    have 8 characters, and then the error of the ISO conversion; for an
    input of 8 characters it always returns a string. *)
Theorem getTimestampForInputDate_throws_iff d h l :
  (String.length d <> 8%nat <->
   getTimestampForInputDate d h l = Throw InvalidIsoDateConversionError) /\
  (String.length d = 8%nat <->
   exists s, getTimestampForInputDate d h l = Ok s).
Proof.
  destruct (Nat.eq_dec (String.length d) 8) as [E|E].
  - assert (Hok : exists s, getTimestampForInputDate d h l = Ok s).
    { destruct (convertToIsoDate_8 d E) as (y1&y2&y3&y4&m1&m2&d1&d2&_&Hc).
      unfold getTimestampForInputDate. rewrite Hc. eexists. reflexivity. }
    split; split; intros H.
    + contradiction.
    + destruct Hok as (s & Hs). congruence.
    + exact Hok.
    + exact E.
  - assert (Hc : getTimestampForInputDate d h l
                 = Throw InvalidIsoDateConversionError).
    { unfold getTimestampForInputDate, convertToIsoDate.
      apply Nat.eqb_neq in E. rewrite E. simpl.
      now rewrite orb_true_r. }
    split; split; intros H.
    + exact Hc.
    + exact E.
    + contradiction.
    + destruct H as (s & H). congruence.
Qed.

(** Taking the dashes out of the ISO form of a date of 8 digits gives the
    date back. *)
Theorem convertToIsoDate_remove_dashes d iso :
  all_digits d = true ->
  convertToIsoDate d = Ok iso ->
  remove_all "-" iso = d.
Proof.
  intros Hd Hiso.
  destruct (convertToIsoDate_length d iso Hiso) as (Hlen & _).
  destruct (convertToIsoDate_8 d Hlen) as (y1&y2&y3&y4&m1&m2&d1&d2&->&E).
  rewrite E in Hiso. injection Hiso as <-.
  assert (Hdash : forall c, match JS.digit c with Some _ => true | None => false end
                             = true -> Ascii.eqb c "-" = false).
  { intros c Hc. destruct (Ascii.eqb_spec c "-") as [->|]; [discriminate Hc | reflexivity]. }
  unfold all_digits, text8 in Hd.
  cbn [string_of_list_ascii list_ascii_of_string forallb] in Hd.
  repeat (apply andb_prop in Hd as [?H Hd]).
  unfold iso10, text8. cbn [string_of_list_ascii remove_all].
  change (Ascii.eqb "-" "-") with true. cbv iota.
  repeat (rewrite Hdash by assumption). reflexivity.
Qed.


(** With [lastPossibleTime] the timestamp is the one of the start of the
    day plus 86399 seconds. *)
Theorem getTimestampForInputDate_lastPossibleTime d h :
  valid_input_date d = true ->
  -23 <= h <= 23 ->
  exists t : Z,
    getTimestampForInputDate d h false = Ok (JS.Number_toString t) /\
    getTimestampForInputDate d h true = Ok (JS.Number_toString (t + 86399)).
Proof.
  intros Hd Hh.
  destruct (valid_input_date_iso d Hd) as (iso & days & Hiso & Hlen & Hdate).
  exists (days * 86400 + 3600 * h).
  unfold getTimestampForInputDate. rewrite Hiso. cbn [bind].
  rewrite !(getTimestampForISODate_offset iso days) by assumption.
  cbn [JS.template_number]. split; do 2 f_equal; lia.
Qed.


End TimeBehaviour.

Section OffsetRange.



Lemma length_string_of_uint u :
  String.length (NilEmpty.string_of_uint u) = Decimal.nb_digits u.
Proof.
  induction u; simpl; congruence.
Qed.

Lemma Number_toString_pos p :
  JS.Number_toString (Zpos p) = NilEmpty.string_of_uint (Pos.to_uint p).
Proof.
  unfold JS.Number_toString. simpl.
  pose proof (DecimalPos.Unsigned.to_uint_nonnil p) as Hn.
  unfold NilZero.string_of_uint.
  destruct (Pos.to_uint p); [contradiction | reflexivity ..].
Qed.





End OffsetRange.


(** * Decimal notation and [getTimestampsForPeriod] *)

Section DecimalNotation.

Import Decimal.

Lemma app_cons l v :
  app (D0 l) v = D0 (app l v) /\ app (D1 l) v = D1 (app l v) /\
  app (D2 l) v = D2 (app l v) /\ app (D3 l) v = D3 (app l v) /\
  app (D4 l) v = D4 (app l v) /\ app (D5 l) v = D5 (app l v) /\
  app (D6 l) v = D6 (app l v) /\ app (D7 l) v = D7 (app l v) /\
  app (D8 l) v = D8 (app l v) /\ app (D9 l) v = D9 (app l v).
Proof.
  repeat split; apply DecimalFacts.to_list_inj; simpl;
    rewrite !DecimalFacts.app_spec; reflexivity.
Qed.

Ltac push_app :=
  match goal with
  | |- context [app (?D ?l) ?v] =>
      let E0 := fresh in let E1 := fresh in let E2 := fresh in
      let E3 := fresh in let E4 := fresh in let E5 := fresh in
      let E6 := fresh in let E7 := fresh in let E8 := fresh in
      let E9 := fresh in
      destruct (app_cons l v) as (E0 & E1 & E2 & E3 & E4 & E5 & E6 & E7 & E8 & E9);
      rewrite ?E0, ?E1, ?E2, ?E3, ?E4, ?E5, ?E6, ?E7, ?E8, ?E9;
      clear E0 E1 E2 E3 E4 E5 E6 E7 E8 E9
  end.

Lemma horner_app u : forall a v, horner a (app u v) = horner (horner a u) v.
Proof.
  induction u; intros a v;
    [ now rewrite DecimalFacts.app_nil_l | push_app; simpl; apply IHu .. ].
Qed.

Lemma string_of_uint_app u v :
  NilEmpty.string_of_uint (app u v)
  = (NilEmpty.string_of_uint u ++ NilEmpty.string_of_uint v)%string.
Proof.
  induction u;
    [ now rewrite DecimalFacts.app_nil_l
    | push_app; simpl; now rewrite IHu .. ].
Qed.

Lemma of_uint_acc_horner d :
  forall acc, Zpos (Pos.of_uint_acc d acc) = horner (Zpos acc) d.
Proof.
  induction d; intros acc; cbn [Pos.of_uint_acc horner];
    [ reflexivity | rewrite IHd; f_equal; lia .. ].
Qed.

Lemma of_uint_horner d : Z.of_N (Pos.of_uint d) = horner 0 d.
Proof.
  induction d; cbn [Pos.of_uint horner Z.of_N];
    [ reflexivity | exact IHd | apply of_uint_acc_horner .. ].
Qed.

Lemma horner_to_uint p : horner 0 (Pos.to_uint p) = Zpos p.
Proof.
  rewrite <- of_uint_horner, DecimalPos.Unsigned.of_to. reflexivity.
Qed.

Lemma unorm_to_uint p : unorm (Pos.to_uint p) = Pos.to_uint p.
Proof.
  rewrite <- (DecimalPos.Unsigned.to_of (Pos.to_uint p)).
  now rewrite DecimalPos.Unsigned.of_to.
Qed.

(** The first digit of a printed positive number is not 0. *)
Lemma to_uint_head p l : Pos.to_uint p <> D0 l.
Proof.
  intros E. pose proof (unorm_to_uint p) as Hn. rewrite E in Hn.
  rewrite DecimalFacts.unorm_D0 in Hn.
  destruct (Decimal.uint_eq_dec l Nil) as [-> | Hl].
  - apply (DecimalPos.Unsigned.to_uint_nonzero p). exact E.
  - pose proof (DecimalFacts.nb_digits_unorm l Hl) as Hle.
    rewrite Hn in Hle. simpl in Hle. lia.
Qed.

(** A number of [n] digits lies below 10 to the [n], and from 10 to the
    [n - 1] on when its first digit is not 0. *)
Lemma horner_bounds d :
  forall a, 0 <= a ->
    a * 10 ^ Z.of_nat (nb_digits d) <= horner a d
    < (a + 1) * 10 ^ Z.of_nat (nb_digits d).
Proof.
  induction d; intros a Ha; cbn [nb_digits horner];
    [ change (Z.of_nat 0) with 0; rewrite Z.pow_0_r; lia | .. ];
    rewrite Nat2Z.inj_succ, Z.pow_succ_r by lia;
    match goal with
    | |- _ <= horner ?b _ < _ =>
        specialize (IHd b ltac:(lia));
        pose proof (Z.pow_pos_nonneg 10 (Z.of_nat (nb_digits d))
                      ltac:(lia) ltac:(lia));
        nia
    end.
Qed.

Lemma nb_digits_10 p :
  10 ^ 9 <= Zpos p < 10 ^ 10 -> nb_digits (Pos.to_uint p) = 10%nat.
Proof.
  intros Hp. pose proof (horner_to_uint p) as Hv.
  destruct (Pos.to_uint p) as [|l|l|l|l|l|l|l|l|l|l] eqn:E;
    [ simpl in Hv; lia | now destruct (to_uint_head p l) | .. ];
    simpl in Hv;
    match type of Hv with
    | horner ?k l = _ =>
        pose proof (horner_bounds l k ltac:(lia)) as Hb;
        rewrite Hv in Hb
    end;
    simpl nb_digits;
    (destruct (Nat.lt_trichotomy (nb_digits l) 9) as [Hlt | [-> | Hgt]];
     [ exfalso;
       assert (10 ^ Z.of_nat (nb_digits l) <= 10 ^ 8)
         by (apply Z.pow_le_mono_r; lia);
       lia
     | reflexivity
     | exfalso;
       assert (10 ^ 10 <= 10 ^ Z.of_nat (nb_digits l))
         by (apply Z.pow_le_mono_r; lia);
       lia ]).
Qed.

Lemma horner_cons_digit k a l :
  0 <= k <= 9 -> horner a (cons_digit k l) = horner (10 * a + k) l.
Proof.
  intros Hk.
  assert (Hc : k = 0 \/ k = 1 \/ k = 2 \/ k = 3 \/ k = 4 \/ k = 5 \/ k = 6
               \/ k = 7 \/ k = 8 \/ k = 9) by lia.
  repeat (destruct Hc as [-> | Hc]); subst; simpl; f_equal; lia.
Qed.

Lemma string_of_cons_digit k l :
  String.length (NilEmpty.string_of_uint (cons_digit k l))
  = S (String.length (NilEmpty.string_of_uint l)).
Proof.
  unfold cons_digit.
  repeat match goal with
         | |- context [match ?x with _ => _ end] => destruct x
         end; reflexivity.
Qed.

Lemma horner_digits3 q r :
  0 <= r < 1000 -> horner q (digits3 r) = 1000 * q + r.
Proof.
  intros Hr. unfold digits3.
  assert (H1 : 0 <= r / 100 <= 9) by (Z.to_euclidean_division_equations; lia).
  assert (H2 : 0 <= r / 10 mod 10 <= 9) by (Z.to_euclidean_division_equations; lia).
  assert (H3 : 0 <= r mod 10 <= 9) by (Z.to_euclidean_division_equations; lia).
  rewrite !horner_cons_digit by assumption.
  cbn [horner]. Z.to_euclidean_division_equations. lia.
Qed.

(** The digits of a number from 1000 on are those of its thousands
    followed by three digits. *)
Lemma to_uint_thousands pF pq r :
  Zpos pF = 1000 * Zpos pq + r -> 0 <= r < 1000 ->
  Pos.to_uint pF = app (Pos.to_uint pq) (digits3 r).
Proof.
  intros HF Hr.
  assert (Hof : Pos.of_uint (app (Pos.to_uint pq) (digits3 r)) = Npos pF).
  { apply N2Z.inj. rewrite of_uint_horner, horner_app, horner_to_uint.
    rewrite horner_digits3 by assumption.
    change (Z.of_N (N.pos pF)) with (Z.pos pF). lia. }
  pose proof (DecimalPos.Unsigned.to_of (app (Pos.to_uint pq) (digits3 r))) as Hto.
  rewrite Hof in Hto.
  change (N.to_uint (N.pos pF)) with (Pos.to_uint pF) in Hto. rewrite Hto.
  pose proof (horner_to_uint pq) as Hv.
  destruct (Pos.to_uint pq) as [|l|l|l|l|l|l|l|l|l|l] eqn:E;
    [ simpl in Hv; lia | now destruct (to_uint_head pq l)
    | push_app; reflexivity .. ].
Qed.

(** The first ten characters of a printed number of thirteen digits are
    the number of its thousands. *)
Lemma substring_thousands F :
  10 ^ 12 <= F < 10 ^ 13 ->
  JS.substring 0 10 (JS.Number_toString F) = JS.Number_toString (F / 1000).
Proof.
  intros HF.
  pose proof (Z.div_mod F 1000 ltac:(lia)) as Hdm.
  pose proof (Z.mod_pos_bound F 1000 ltac:(lia)) as Hr.
  assert (Hq : 10 ^ 9 <= F / 1000 < 10 ^ 10).
  { split; [apply Z.div_le_lower_bound | apply Z.div_lt_upper_bound]; lia. }
  destruct F as [|pF|pF]; try lia.
  destruct (Zpos pF / 1000) as [|pq|pq] eqn:Eq; try lia.
  rewrite !Number_toString_pos.
  rewrite (to_uint_thousands pF pq (Zpos pF mod 1000)) by lia.
  rewrite string_of_uint_app. unfold JS.substring.
  change (10 - 0)%nat with 10%nat.
  rewrite <- (nb_digits_10 pq Hq) at 1.
  rewrite <- length_string_of_uint. apply substring_prefix.
Qed.

Lemma substring_ten_digits T :
  10 ^ 9 <= T < 10 ^ 10 ->
  JS.substring 0 10 (JS.Number_toString T) = JS.Number_toString T.
Proof.
  intros HT. destruct T as [|p|p]; try lia.
  rewrite Number_toString_pos. unfold JS.substring.
  change (10 - 0)%nat with 10%nat.
  rewrite <- (nb_digits_10 p HT) at 1.
  rewrite <- length_string_of_uint. apply substring_all.
Qed.

Lemma digits_value_print u :
  forall acc rest,
    Runtime.digits_value 10 JS.digit (NilEmpty.string_of_uint u ++ rest) acc
    = Runtime.digits_value 10 JS.digit rest (horner acc u).
Proof.
  induction u; intros acc rest;
    cbn [NilEmpty.string_of_uint append Runtime.digits_value horner];
    [ reflexivity
    | match goal with
      | |- context [JS.digit ?c] =>
          let v := eval vm_compute in (JS.digit c) in
          change (JS.digit c) with v
      end;
      cbv iota; rewrite IHu; f_equal; f_equal; lia .. ].
Qed.

Lemma leading_chars_ok_true : leading_chars_ok = true.
Proof. vm_compute. reflexivity. Qed.

(** [parseInt] on a text that starts with a digit from 1 to 9. *)
Lemma parseInt_leading_digit c r k :
  JS.digit c = Some k -> k <> 0 ->
  Runtime.parseInt (String c r)
  = Some (Runtime.digits_value 10 JS.digit (String c r) 0).
Proof.
  intros H Hk.
  pose proof leading_chars_ok_true as Hall. unfold leading_chars_ok in Hall.
  rewrite forallb_forall in Hall.
  specialize (Hall (nat_of_ascii c)
                (proj2 (in_seq _ _ _) (conj (Nat.le_0_l _) (nat_ascii_bounded c)))).
  unfold leading_char_ok in Hall.
  rewrite ascii_nat_embedding, H in Hall.
  destruct (Z.eqb_spec k 0) as [-> | _]; [now destruct Hk|].
  simpl orb in Hall.
  repeat (apply andb_prop in Hall as [?Hc Hall]).
  apply negb_true_iff in Hc, Hc0, Hc1, Hall.
  unfold Runtime.parseInt. cbn [Runtime.trim_start].
  rewrite Hc, Hc0, Hc1.
  unfold Runtime.parseInt_unsigned.
  destruct r as [|x r];
    [| rewrite Hall; cbn [andb] ];
    unfold Runtime.parseInt_digits, Runtime.starts_with_digit;
    rewrite H; f_equal; apply Z.mul_1_l.
Qed.

(** [parseInt] reads back a printed positive number, and goes on with the
    digits that follow it. *)
Lemma parseInt_print p rest :
  Runtime.parseInt (JS.Number_toString (Zpos p) ++ rest)
  = Some (Runtime.digits_value 10 JS.digit rest (Zpos p)).
Proof.
  rewrite Number_toString_pos, <- (horner_to_uint p).
  rewrite <- digits_value_print.
  destruct (Pos.to_uint p) as [|l|l|l|l|l|l|l|l|l|l] eqn:E;
    [ now destruct (DecimalPos.Unsigned.to_uint_nonnil p)
    | now destruct (to_uint_head p l)
    | .. ];
    cbn [NilEmpty.string_of_uint append];
    (eapply parseInt_leading_digit; [reflexivity | discriminate]).
Qed.

End DecimalNotation.

(** When the date before is read as the timestamp [T] of its last second,
    a timestamp of ten digits, and the start of the period lies in the
    range of thirteen-digit milliseconds, [getTimestampsForPeriod] answers
    with [to] the text of [T] and [from] the text of the whole seconds of
    [1000 * T + 1000] less the milliseconds of the days.  For days of
    86400000 ms that is [T + 1 - 86400 * lastNumDays]: the period is that
    many whole days long and ends with the day before. *)
Theorem getTimestampsForPeriod_window
  (getDateBefore : bool -> string) (getMillisecondsForDays : Z -> Z)
  (lastNumDays offsetInHours T : Z) :
  getTimestampForInputDate (getDateBefore true) offsetInHours true
    = Ok (JS.Number_toString T) ->
  10 ^ 9 <= T < 10 ^ 10 ->
  10 ^ 12 <= 1000 * T + 1000 - getMillisecondsForDays lastNumDays < 10 ^ 13 ->
  getTimestampsForPeriod getDateBefore getMillisecondsForDays lastNumDays offsetInHours
    = Ok {| from := JS.Number_toString
                      ((1000 * T + 1000 - getMillisecondsForDays lastNumDays) / 1000);
            to := JS.Number_toString T |} /\
  (getMillisecondsForDays lastNumDays = 86400000 * lastNumDays ->
   (1000 * T + 1000 - getMillisecondsForDays lastNumDays) / 1000
     = T + 1 - 86400 * lastNumDays).
Proof.
  intros Hto HT HF. split.
  - unfold getTimestampsForPeriod. rewrite Hto. cbn [bind].
    destruct T as [|p|p]; try lia.
    rewrite parseInt_print. cbn [Runtime.digits_value].
    change (JS.digit "9") with (Some 9). cbv iota.
    unfold Runtime.Date_of_number.
    replace (((Z.pos p * 10 + 9) * 10 + 9) * 10 + 9
             - getMillisecondsForDays lastNumDays + 1)
      with (1000 * Z.pos p + 1000 - getMillisecondsForDays lastNumDays) by lia.
    destruct (Z.leb_spec
                (Z.abs (1000 * Z.pos p + 1000 - getMillisecondsForDays lastNumDays))
                8640000000000000) as [_ | Hbig]; [|lia].
    cbn [JS.template_number].
    rewrite (substring_thousands _ HF), (substring_ten_digits _ HT).
    reflexivity.
  - intros ->.
    replace (1000 * T + 1000 - 86400000 * lastNumDays)
      with ((T + 1 - 86400 * lastNumDays) * 1000) by lia.
    apply Z.div_mul. lia.
Qed.

Lemma getTimestampsForPeriod_window_witness :
  getTimestampsForPeriod (fun _ => "20230131") (fun n => 86400000 * n) 30 0
    = Ok {| from := JS.Number_toString
                      ((1000 * 1675209599 + 1000 - 86400000 * 30) / 1000);
            to := JS.Number_toString 1675209599 |} /\
  (86400000 * 30 = 86400000 * 30 ->
   (1000 * 1675209599 + 1000 - 86400000 * 30) / 1000
     = 1675209599 + 1 - 86400 * 30).
Proof.
  apply (getTimestampsForPeriod_window (fun _ => "20230131")
           (fun n => 86400000 * n) 30 0 1675209599).
  - reflexivity.
  - lia.
  - lia.
Defined.

(** * The calendar and [getMaxTimestampFromDate] *)

Section Calendar.

Import DateObject.

Lemma in_range_383 x :
  0 <= x < 383 -> In x (map Z.of_nat (seq 0 383)).
Proof.
  intros Hx. apply in_map_iff. exists (Z.to_nat x).
  split; [lia | apply in_seq; lia].
Qed.

Lemma cycle_rows_ok :
  forallb cycle_row_ok (map Z.of_nat (seq 0 383)) = true.
Proof. vm_compute. reflexivity. Qed.

(** Every day of the 400-year cycle passes the check. *)
Lemma cycle_day_ok_all doe : 0 <= doe < 146097 -> cycle_day_ok doe = true.
Proof.
  intros Hd.
  assert (Hi : 0 <= doe / 383 < 383) by (Z.to_euclidean_division_equations; lia).
  assert (Hj : 0 <= doe mod 383 < 383) by (Z.to_euclidean_division_equations; lia).
  pose proof cycle_rows_ok as H. rewrite forallb_forall in H.
  specialize (H (doe / 383) (in_range_383 _ Hi)).
  unfold cycle_row_ok in H. rewrite forallb_forall in H.
  specialize (H (doe mod 383) (in_range_383 _ Hj)).
  cbv zeta in H.
  replace (383 * (doe / 383) + doe mod 383) with doe in H
    by (Z.to_euclidean_division_equations; lia).
  apply orb_prop in H as [H | H]; [apply Z.leb_le in H; lia | exact H].
Qed.

(** The civil date of a day is the one of its day of the cycle, moved by
    400 years for each cycle. *)
Lemma civil_from_days_cycle z :
  let era := (z + 719468) / 146097 in
  let doe := (z + 719468) mod 146097 in
  civil_from_days z =
    let '(y, m, d) := civil_from_days (doe - 719468) in (y + 400 * era, m, d).
Proof.
  cbv zeta. unfold civil_from_days. cbv zeta.
  pose proof (Z.mod_pos_bound (z + 719468) 146097 ltac:(lia)) as Hb.
  replace ((z + 719468) mod 146097 - 719468 + 719468)
    with ((z + 719468) mod 146097) by lia.
  rewrite (Z.div_small ((z + 719468) mod 146097) 146097) by lia.
  replace ((z + 719468) mod 146097 - 0 * 146097)
    with ((z + 719468) mod 146097) by lia.
  replace (z + 719468 - (z + 719468) / 146097 * 146097)
    with ((z + 719468) mod 146097) by (rewrite Z.mod_eq by lia; lia).
  set (doe := (z + 719468) mod 146097).
  set (yoe := (doe - doe / 1460 + doe / 36524 - doe / 146096) / 365).
  set (doy := doe - (365 * yoe + yoe / 4 - yoe / 100)).
  set (mp := (5 * doy + 2) / 153).
  destruct ((if mp <? 10 then mp + 3 else mp - 9) <=? 2); f_equal; f_equal; lia.
Qed.

Lemma days_from_civil_cycle y m d k :
  JS.days_from_civil (y + 400 * k) m d = JS.days_from_civil y m d + 146097 * k.
Proof.
  unfold JS.days_from_civil. cbv zeta.
  assert (H : forall y', (y' + 400 * k) / 400 = y' / 400 + k).
  { intros y'. replace (y' + 400 * k) with (y' + k * 400) by lia.
    apply Z.div_add. lia. }
  destruct (m <=? 2).
  - replace (y + 400 * k - 1) with (y - 1 + 400 * k) by lia.
    rewrite H.
    replace (y - 1 + 400 * k - ((y - 1) / 400 + k) * 400)
      with (y - 1 - (y - 1) / 400 * 400) by lia.
    lia.
  - rewrite H.
    replace (y + 400 * k - (y / 400 + k) * 400)
      with (y - y / 400 * 400) by lia.
    lia.
Qed.

Lemma days_from_civil_day y m d :
  JS.days_from_civil y m d = JS.days_from_civil y m 1 + d - 1.
Proof.
  unfold JS.days_from_civil. cbv zeta. lia.
Qed.

(** The civil date of a day number leads back to it; years 0 to 9999 are
    the days from -719528 to 2932896. *)
Lemma civil_from_days_spec z :
  let '(y, m, d) := civil_from_days z in
  JS.days_from_civil y m d = z /\ 1 <= m <= 12 /\ 1 <= d <= 31 /\
  (-719528 <= z <= 2932896 -> 0 <= y <= 9999).
Proof.
  rewrite civil_from_days_cycle.
  pose proof (Z.mod_pos_bound (z + 719468) 146097 ltac:(lia)) as Hb.
  pose proof (Z.div_mod (z + 719468) 146097 ltac:(lia)) as Hdm.
  pose proof (cycle_day_ok_all _ Hb) as Hok. unfold cycle_day_ok in Hok.
  destruct (civil_from_days ((z + 719468) mod 146097 - 719468)) as [[y m] d].
  apply andb_prop in Hok as [Hmd Hok].
  apply andb_prop in Hmd as [Hm Hd].
  apply andb_prop in Hm as [Hm1 Hm2]. apply andb_prop in Hd as [Hd1 Hd2].
  apply andb_prop in Hok as [Hrt Hy].
  apply Z.leb_le in Hm1, Hm2, Hd1, Hd2. apply Z.eqb_eq in Hrt.
  rewrite days_from_civil_cycle, Hrt.
  split; [lia|]. split; [lia|]. split; [lia|].
  intros Hz.
  destruct (146037 <=? (z + 719468) mod 146097) eqn:E.
  - apply Z.leb_le in E. apply Z.eqb_eq in Hy. lia.
  - apply Z.leb_gt in E. apply andb_prop in Hy as [Hy1 Hy2].
    apply Z.leb_le in Hy1, Hy2. lia.
Qed.

Lemma digit_char_digit k : 0 <= k <= 9 -> JS.digit (digit_char k) = Some k.
Proof.
  intros Hk.
  assert (Hc : k = 0 \/ k = 1 \/ k = 2 \/ k = 3 \/ k = 4 \/ k = 5 \/ k = 6
               \/ k = 7 \/ k = 8 \/ k = 9) by lia.
  repeat (destruct Hc as [-> | Hc]); subst; reflexivity.
Qed.

Lemma digit_char_not_dash k : Ascii.eqb (digit_char k) "-" = false.
Proof.
  unfold digit_char.
  repeat match goal with
         | |- context [match ?x with _ => _ end] => destruct x
         end; reflexivity.
Qed.

End Calendar.

Section MaxTimestampFacts.

Import DateObject.

(** The date text of [toISOString] for a year from 0 to 9999 is read
    back by the parser of dates. *)
Lemma parse_date_pad y m d :
  0 <= y <= 9999 -> 1 <= m <= 12 -> 1 <= d <= 31 ->
  JS.parse_date (pad4 y ++ "-" ++ pad2 m ++ "-" ++ pad2 d)
  = Some (JS.days_from_civil y m d).
Proof.
  intros Hy Hm Hd.
  unfold JS.parse_date, pad4, pad3, pad2.
  cbn [append list_ascii_of_string].
  change (Ascii.eqb "-" "-") with true. cbn [andb].
  unfold JS.num4, JS.num2.
  rewrite !digit_char_digit by (Z.to_euclidean_division_equations; lia).
  replace (100 * (10 * (y / 1000) + y mod 1000 / 100)
           + (10 * (y mod 1000 mod 100 / 10) + y mod 1000 mod 100 mod 10))
    with y by (Z.to_euclidean_division_equations; lia).
  replace (10 * (m / 10) + m mod 10) with m
    by (Z.to_euclidean_division_equations; lia).
  replace (10 * (d / 10) + d mod 10) with d
    by (Z.to_euclidean_division_equations; lia).
  destruct (Z.leb_spec 1 m), (Z.leb_spec m 12), (Z.leb_spec 1 d),
    (Z.leb_spec d 31); try lia.
  reflexivity.
Qed.

(** Setting the day of the month to the current one less [n] moves the
    date back by [n] whole days. *)
Lemma setUTCDate_back t n :
  Z.abs ((Day t - n) * msPerDay + TimeWithinDay t) <= 8640000000000000 ->
  setUTCDate (Some t)
    (match getUTCDate (Some t) with
     | Some dt => Some (dt - n)
     | None => None
     end)
  = Some ((Day t - n) * msPerDay + TimeWithinDay t).
Proof.
  intros Hclip. unfold getUTCDate, setUTCDate, YearFromTime, MonthFromTime,
    DateFromTime, MakeDay, MakeDate.
  pose proof (civil_from_days_spec (Day t)) as Hc.
  destruct (civil_from_days (Day t)) as [[y m] d]. cbn [fst snd].
  destruct Hc as (Hrt & Hm & Hd & _).
  replace ((m - 1) / 12) with 0 by (Z.to_euclidean_division_equations; lia).
  replace ((m - 1) mod 12 + 1) with m by (Z.to_euclidean_division_equations; lia).
  replace (y + 0) with y by lia.
  rewrite (days_from_civil_day y m d) in Hrt.
  replace (JS.days_from_civil y m 1 + (d - n) - 1) with (Day t - n) by lia.
  unfold TimeClip.
  destruct (Z.leb_spec (Z.abs ((Day t - n) * msPerDay + TimeWithinDay t))
              8640000000000000); [reflexivity | lia].
Qed.

End MaxTimestampFacts.

(** When the day [maxDateRange] days before the current date lies in the
    years 0 to 9999 and the offset in -23 .. 23, [getMaxTimestampFromDate]
    returns the timestamp of midnight UTC of that day plus 3600 seconds
    for each hour of offset; the time of day of the current date plays no
    part. *)
Theorem getMaxTimestampFromDate_midnight (t maxDateRange offset : Z) :
  -719528 <= t / 86400000 - maxDateRange <= 2932896 ->
  -23 <= offset <= 23 ->
  getMaxTimestampFromDate (Some t) maxDateRange offset
  = inr (JS.Number_toString
           (86400 * (t / 86400000 - maxDateRange) + 3600 * offset)).
Proof.
  intros Hz Hh. unfold getMaxTimestampFromDate.
  pose proof (Z.mod_pos_bound t 86400000 ltac:(lia)) as Htw.
  rewrite setUTCDate_back
    by (unfold DateObject.Day, DateObject.TimeWithinDay, DateObject.msPerDay; lia).
  unfold DateObject.toISOString.
  assert (HD : DateObject.Day
                 ((DateObject.Day t - maxDateRange) * DateObject.msPerDay
                  + DateObject.TimeWithinDay t)
               = t / 86400000 - maxDateRange).
  { unfold DateObject.Day, DateObject.TimeWithinDay, DateObject.msPerDay.
    rewrite Z.div_add_l by lia. rewrite (Z.div_small (t mod 86400000)) by lia.
    lia. }
  rewrite HD.
  pose proof (civil_from_days_spec (t / 86400000 - maxDateRange)) as Hc.
  destruct (DateObject.civil_from_days (t / 86400000 - maxDateRange))
    as [[y m] d].
  destruct Hc as (Hrt & Hm & Hd & Hy). specialize (Hy Hz).
  unfold DateObject.iso_year.
  destruct (Z.leb_spec 0 y), (Z.leb_spec y 9999); try lia. cbn [andb].
  pose proof (parse_date_pad y m d Hy Hm Hd) as Hp.
  unfold DateObject.pad4, DateObject.pad3, DateObject.pad2 in *.
  cbn [append] in *. unfold JS.substring. cbn [Nat.sub String.substring].
  cbn [remove_all]. change (Ascii.eqb "-" "-") with true. cbv iota.
  rewrite !digit_char_not_dash.
  unfold getTimestampForInputDate, convertToIsoDate.
  cbn [String.eqb String.length Nat.eqb orb negb JS.substring Nat.sub
         String.substring append bind].
  rewrite (getTimestampForISODate_offset _ (JS.days_from_civil y m d))
    by (reflexivity || assumption).
  rewrite Hrt. cbn [JS.template_number]. do 2 f_equal. lia.
Qed.

Lemma getMaxTimestampFromDate_midnight_witness :
  getMaxTimestampFromDate (Some 1674738071848) 30 (-4)
  = inr (JS.Number_toString
           (86400 * (1674738071848 / 86400000 - 30) + 3600 * (-4))).
Proof.
  apply (getMaxTimestampFromDate_midnight 1674738071848 30 (-4)).
  - vm_compute. split; discriminate.
  - lia.
Defined.

(** * The further properties on samples *)

(** For a body with a [primary_id], what goes wrong with the request is
    what [getPayload] throws: a rejected request with its own error, and
    an answer that is [null], or an object without keys, as missing
    fields. *)
Theorem getPayload_story_errors convertDateToUnixTimestamp JSON_stringify
  this w wb i :
  primary_id wb = val i -> i <> "" ->
  let answer :=
    fetch w ("https://api.app.shortcut.com/api/v3/stories/" ++ i)
          (shortcutToken this) in
  let run :=
    getPayload convertDateToUnixTimestamp JSON_stringify this w
      {| body := val wb |} in
  (forall e, answer = Throw e -> run = Throw e) /\
  (answer = Ok null \/ answer = Ok undefined -> run = Throw MissingShortcutFieldsError) /\
  (forall story, answer = Ok (val story) -> StoryData_keys_length story = 0%nat ->
     run = Throw MissingShortcutFieldsError).
Proof.
  intros Hi Hne answer run.
  assert (Hk : Nat.eqb (WebhookBody_keys_length wb) 0 = false).
  { unfold WebhookBody_keys_length. rewrite Hi. reflexivity. }
  assert (Hrun : run = let* story := getStoryData this w wb in
                       (let* event := getPayload_event this wb story in
                        match event with
                        | opened | labeled =>
                            Ok (handleOpenedLabeled convertDateToUnixTimestamp
                                  JSON_stringify wb story)
                        | closed | unlabeled =>
                            Ok (handleClosedUnlabeled convertDateToUnixTimestamp
                                  JSON_stringify w wb story)
                        | unknown => Ok UNKNOWN_dto
                        end)).
  { unfold run, getPayload. simpl body_or_empty. now rewrite Hk. }
  assert (Hs : getStoryData this w wb =
               let* storyData := answer in
               match storyData with
               | val storyData =>
                   if Nat.eqb (StoryData_keys_length storyData) 0
                   then Throw MissingShortcutFieldsError
                   else Ok storyData
               | _ => Throw MissingShortcutFieldsError
               end).
  { unfold getStoryData. rewrite Hi. simpl.
    apply String.eqb_neq in Hne. now rewrite Hne. }
  rewrite Hrun, Hs. split; [|split].
  - intros e ->. reflexivity.
  - intros [-> | ->]; reflexivity.
  - intros story -> Hz. simpl. now rewrite Hz.
Qed.

Lemma getPayload_story_errors_witness :
  (forall e,
     fetch {| fetch := fun _ _ => Throw FetchError; Date_now := 0 |}
       ("https://api.app.shortcut.com/api/v3/stories/" ++ "123")
       (shortcutToken parser7) = Throw e ->
     getPayload sample_convert sample_stringify parser7
       {| fetch := fun _ _ => Throw FetchError; Date_now := 0 |}
       {| body := val delete_story |} = Throw e) /\
  getPayload sample_convert sample_stringify parser7
    {| fetch := fun _ _ => Throw FetchError; Date_now := 0 |}
    {| body := val delete_story |} = Throw FetchError.
Proof.
  pose proof (getPayload_story_errors sample_convert sample_stringify parser7
                {| fetch := fun _ _ => Throw FetchError; Date_now := 0 |}
                delete_story "123" eq_refl ltac:(discriminate)) as H.
  cbv zeta in H. destruct H as (H & _).
  split; [exact H | apply H; reflexivity].
Defined.


Lemma getEventType_agrees_with_event_witness :
  (labeled = labeled ->
   getEventType parser7 {| body := val create_with_label |} = Ok "incident") /\
  (labeled = opened \/ labeled = unlabeled ->
   getEventType parser7 {| body := val create_with_label |} = Ok "change").
Proof.
  apply (getEventType_agrees_with_event parser7 create_with_label open_story labeled).
  reflexivity.
Defined.


Lemma convertToIsoDate_remove_dashes_witness :
  remove_all "-" "2023-01-01" = "20230101".
Proof.
  apply (convertToIsoDate_remove_dashes "20230101" "2023-01-01"); reflexivity.
Defined.


Lemma getTimestampForInputDate_lastPossibleTime_witness :
  exists t : Z,
    getTimestampForInputDate "20230101" 7 false = Ok (JS.Number_toString t) /\
    getTimestampForInputDate "20230101" 7 true = Ok (JS.Number_toString (t + 86399)).
Proof.
  apply (getTimestampForInputDate_lastPossibleTime "20230101" 7);
    [reflexivity | lia].
Defined.


Example constructor_sample :
  constructor sample_parseInt sample_env = inr parser7.
Proof. reflexivity. Qed.

Example constructor_without_token :
  constructor sample_parseInt
    {| SHORTCUT_TOKEN := undefined; SHORTCUT_INCIDENT_LABEL_ID := val "7" |}
  = inl (ShortcutConfigurationError "SHORTCUT_TOKEN").
Proof. reflexivity. Qed.

Example getMaxTimestampFromDate_invalid_date :
  getMaxTimestampFromDate None 30 0 = inl RangeError.
Proof. reflexivity. Qed.

(** The day before 0000-01-01 is printed with a sign and six digits of
    year; what is left of it after the dashes are taken out reads as
    0000-01-12. *)
Example getMaxTimestampFromDate_before_year_0 :
  getMaxTimestampFromDate (Some (-62167219200000)) 1 0 = inr "-62166268800".
Proof. vm_compute. reflexivity. Qed.


(** * The local repository *)

Section SplitFacts.

Lemma split_on_nonempty c s : split_on c s <> [].
Proof.
  destruct s as [|a r]; simpl; [discriminate|].
  destruct (Ascii.eqb a c); [discriminate|].
  destruct (split_on c r); discriminate.
Qed.

Lemma split_on_without c s : without c s -> split_on c s = [s].
Proof.
  unfold without. induction s as [|a r IH]; simpl; [reflexivity|].
  destruct (Ascii.eqb a c); [discriminate|].
  intros H. now rewrite (IH H).
Qed.


End SplitFacts.

Section LocalRepoFacts.

Import LocalRepository.

Variables Change Deployment Incident : Type.
Variable change_product : Change -> string.
Variable deployment_product : Deployment -> string.
Variable incident_product : Incident -> string.
Variable toLowerCase : string -> string.

Local Abbreviation items_of :=
  (getItem Change Deployment Incident change_product deployment_product
           incident_product toLowerCase).
Local Abbreviation metrics_of :=
  (getMetrics Change Deployment Incident change_product deployment_product
              incident_product toLowerCase).
Local Abbreviation product_of :=
  (product Change Deployment Incident change_product deployment_product
           incident_product).

Lemma product_is_eq r p : product_is r p = true -> r = Some p.
Proof.
  destruct r as [r|]; simpl; [|discriminate].
  intros H. apply String.eqb_eq in H. now subst.
Qed.

Lemma getItem_products this req it :
  In it (items_of this req) ->
  nth_error (split_on "_" (key req)) 1 = Some (product_of it).
Proof.
  unfold getItem.
  repeat match goal with
         | |- context [if ?b then _ else _] => destruct b
         end;
    try contradiction;
    intros H; apply in_map_iff in H as (x & <- & H);
    apply filter_In in H as (_ & H); now apply product_is_eq in H.
Qed.


(** For a key without an underscore [getMetrics] returns no item,
    whatever the repository holds. *)
Theorem getMetrics_key_without_underscore this req :
  without "_" (key req) -> metrics_of this req = inr [].
Proof.
  intros Hk.
  destruct (items_of this req) as [|it l] eqn:E.
  - unfold getMetrics. simpl. fold items_of. now rewrite E.
  - assert (Hin : In it (items_of this req)) by (rewrite E; now left).
    apply getItem_products in Hin.
    rewrite (split_on_without "_" _ Hk) in Hin. discriminate Hin.
Qed.

End LocalRepoFacts.

Lemma getMetrics_key_without_underscore_witness :
  LocalRepository.getMetrics nat nat nat
    (fun _ => "change") (fun _ => "change") (fun _ => "change") (fun s => s)
    {| LocalRepository.changes := [1%nat; 2%nat];
       LocalRepository.deployments := []; LocalRepository.incidents := [] |}
    {| LocalRepository.key := "change" |}
  = inr [].
Proof.
  apply (getMetrics_key_without_underscore nat nat nat
           (fun _ => "change") (fun _ => "change") (fun _ => "change")
           (fun s => s)).
  reflexivity.
Defined.
